(** * aws_helpers.athena_helper: a shallow embedding and its properties

    The module [src/aws_helpers/athena_helper.py] holds three functions:
    [start_athena_query] (one remote call), [wait_for_athena_query] (a bounded
    polling loop that ends in a regular-expression extraction) and
    [athena_to_s3] (their composition).

    The embedding keeps the shape of the Python code:
    - Python values are the inductive [pyval]; dictionaries are [gmap]s with
      string keys (the responses of the remote service are JSON objects);
    - a raised exception is the [Raise] case of [result];
    - the remote client is an interface ([AthenaClient]) whose two methods
      thread the client state explicitly;
    - everything the code does to the outside (remote calls, [time.sleep],
      [print]) is recorded, in order, in the [trace] of the [world];
    - the [while] loop is a function defined by well-founded recursion on the
      remaining attempt budget.

    A Python [str] is modelled by the bytes of its UTF-8 encoding.  The two
    characters the code inspects, '/' and the line feed, are single bytes that
    never occur inside a multi-byte sequence, so the extraction acts on the
    bytes as it acts on the code points. *)

From Stdlib Require Import String Ascii ZArith List DecimalString.
From stdpp Require Import gmap strings list.
From Equations Require Import Equations.

#[local] Set Warnings "-register-all".
#[local] Open Scope string_scope.
#[local] Open Scope Z_scope.

(** ** Python values and exceptions *)

Inductive pyval :=
| VNone
| VBool (b : bool)
| VInt (z : Z)
| VStr (s : string)
| VList (l : list pyval)
| VDict (d : gmap string pyval).

Inductive exn :=
| KeyError (key : string)
| TypeError
| IndexError
| RemoteError (msg : string).

Inductive result (A : Type) :=
| Ok (a : A)
| Raise (e : exn).
Arguments Ok {A} a.
Arguments Raise {A} e.

(** Statements in sequence: the first exception raised ends the sequence. *)
#[global] Instance result_ret : MRet result := fun A (a : A) => Ok a.

#[global] Instance result_bind : MBind result :=
  fun A B (f : A -> result B) (r : result A) =>
    match r with
    | Ok a => f a
    | Raise e => Raise e
    end.

(** [v == 'lit'] for a string literal: only a [str] with the same text. *)
Definition py_eq_str (v : pyval) (lit : string) : bool :=
  match v with
  | VStr s => String.eqb s lit
  | _ => false
  end.

(** [needle in hay] on two strings: substring test. *)
Fixpoint is_substring (needle hay : string) : bool :=
  String.prefix needle hay ||
  match hay with
  | EmptyString => false
  | String _ hay' => is_substring needle hay'
  end.

(** ['key' in container]: key membership for a dict, substring test for a
    str, element membership for a list, [TypeError] for the values that are
    not iterable. *)
Definition py_in (key : string) (container : pyval) : result bool :=
  match container with
  | VDict d => Ok (bool_decide (is_Some (d !! key)))
  | VStr s => Ok (is_substring key s)
  | VList l => Ok (existsb (fun v => py_eq_str v key) l)
  | VNone | VBool _ | VInt _ => Raise TypeError
  end.

(** [container['key']]: [KeyError] on a dict without the key, [TypeError] on
    everything that cannot be indexed by a string. *)
Definition py_getitem (container : pyval) (key : string) : result pyval :=
  match container with
  | VDict d =>
      match d !! key with
      | Some v => Ok v
      | None => Raise (KeyError key)
      end
  | _ => Raise TypeError
  end.

(** [str(n)] for an int, as used by the f-string. *)
Definition py_str_int (n : Z) : string := NilZero.string_of_int (Z.to_int n).

(** ** The regular expression of the extraction and [re.findall]

    The source pattern is: dot star, a slash, then a group holding dot star.

    The pattern is a sequence of items; a starred item is greedy and gives
    characters back one at a time (backtracking), as Python's engine does.
    Exactly one group is supported, which is what the pattern uses. *)

Module Re.

Definition LF : ascii := "010"%char.

Inductive atom :=
| Any                 (* [.]: every character except the line feed *)
| Lit (c : ascii).    (* a literal character *)

Inductive item :=
| One (a : atom)
| Star (a : atom)     (* [a*], greedy *)
| GroupOpen
| GroupClose.

Definition regex := list item.

Definition atom_matches (a : atom) (c : ascii) : bool :=
  match a with
  | Any => negb (Ascii.eqb c LF)
  | Lit c' => Ascii.eqb c c'
  end.

(** The text captured so far and whether the group is still open. *)
Record capture := { is_open : bool; text : string }.

Definition no_capture : capture := {| is_open := false; text := "" |}.

Definition consume (c : ascii) (cap : capture) : capture :=
  if is_open cap
  then {| is_open := true; text := text cap ++ String c "" |}
  else cap.

(** [match_here p s cap]: match [p] at the start of [s]; on success the text
    of the group and the unread rest of [s]. *)
Fixpoint match_here (p : regex) (s : string) (cap : capture)
  : option (string * string) :=
  match p with
  | [] => Some (text cap, s)
  | One a :: p' =>
      match s with
      | String c s' =>
          if atom_matches a c then match_here p' s' (consume c cap) else None
      | EmptyString => None
      end
  | Star a :: p' =>
      (fix star (s : string) (cap : capture) : option (string * string) :=
         match s with
         | String c s' =>
             if atom_matches a c then
               match star s' (consume c cap) with
               | Some r => Some r
               | None => match_here p' s cap
               end
             else match_here p' s cap
         | EmptyString => match_here p' s cap
         end) s cap
  | GroupOpen :: p' => match_here p' s {| is_open := true; text := "" |}
  | GroupClose :: p' => match_here p' s {| is_open := false; text := text cap |}
  end.

(** The scan of [re.findall]: try every start position from the left; after
    a match go on from its end (one character further after an empty
    match).  Every call shortens the subject, so [S (length s)] units of
    fuel are never used up. *)
Fixpoint findall_from (fuel : nat) (p : regex) (s : string) : list string :=
  match fuel with
  | O => []
  | S fuel' =>
      let advance :=
        match s with
        | String _ s' => findall_from fuel' p s'
        | EmptyString => []
        end in
      match match_here p s no_capture with
      | Some (g, rest) =>
          g :: (if (String.length rest <? String.length s)%nat
                then findall_from fuel' p rest
                else advance)
      | None => advance
      end
  end.

Definition findall (p : regex) (s : string) : list string :=
  findall_from (S (String.length s)) p s.

(** The items of the pattern after its leading star. *)
Definition after_star : regex :=
  [One (Lit "/"); GroupOpen; Star Any; GroupClose].

(** The pattern of the source, item by item. *)
Definition pattern : regex := Star Any :: after_star.

End Re.


(** ** The pure expressions of [wait_for_athena_query] *)

(** [re.findall(pattern, s3_path)]: a [TypeError] when the subject is not a
    string. *)
Definition re_findall (p : Re.regex) (subject : pyval) : result (list string) :=
  match subject with
  | VStr s => Ok (Re.findall p s)
  | _ => Raise TypeError
  end.

(** [matches[0]] *)
Definition first_item (matches : list string) : result string :=
  match matches with
  | g :: _ => Ok g
  | [] => Raise IndexError
  end.

(** [state in ['RUNNING', 'QUEUED']] *)
Definition in_progress (state : pyval) : bool :=
  py_eq_str state "RUNNING" || py_eq_str state "QUEUED".

(** The test of the [if] on the response; [and] evaluates its right operand
    only when the left one is true. *)
Definition has_status (response : pyval) : result bool :=
  has_execution ← py_in "QueryExecution" response;
  if has_execution : bool then
    execution ← py_getitem response "QueryExecution";
    py_in "Status" execution
  else mret false.

(** [response['QueryExecution']['Status']] *)
Definition status_of (response : pyval) : result pyval :=
  execution ← py_getitem response "QueryExecution";
  py_getitem execution "Status".

(** [response['QueryExecution']['Status']['State']] *)
Definition state_of (response : pyval) : result pyval :=
  status ← status_of response;
  py_getitem status "State".

(** [response['QueryExecution']['ResultConfiguration']['OutputLocation']] *)
Definition output_location_of (response : pyval) : result pyval :=
  execution ← py_getitem response "QueryExecution";
  configuration ← py_getitem execution "ResultConfiguration";
  py_getitem configuration "OutputLocation".

(** The statements of the SUCCEEDED branch up to its [return]. *)
Definition extract_filename (response : pyval) : result string :=
  s3_path ← output_location_of response;
  matches ← re_findall Re.pattern s3_path;
  first_item matches.

(** The f-string of the failure message. *)
Definition failure_message (max_execution : Z) : string :=
  "⚠️ La consulta falló. Quedan " ++ py_str_int max_execution ++ " intentos.".

(** ** The remote client, the world and the monad of the program *)

(** The keyword arguments of [start_query_execution], as the submitter
    builds them. *)
Record start_request := {
  QueryString : string;
  QueryExecutionContext : pyval;
  ResultConfiguration : pyval
}.

(** The two methods the module calls on [athena_client].  A call answers
    with a value or raises, and moves the client (the remote service as seen
    through it) to its next state. *)
Class AthenaClient (C : Type) := {
  start_query_execution : start_request -> C -> result pyval * C;
  get_query_execution : pyval -> C -> result pyval * C
}.

(** What the program does to the outside, in the order it does it. *)
Inductive event :=
| EvStart (req : start_request)      (* athena_client.start_query_execution *)
| EvGet (query_execution_id : pyval) (* athena_client.get_query_execution *)
| EvSleep (seconds : Z)              (* time.sleep *)
| EvPrint (v : pyval).               (* print *)

Record world (C : Type) := { client : C; trace : list event }.
Arguments client {C} w.
Arguments trace {C} w.

Definition is_get (e : event) : bool :=
  match e with EvGet _ => true | _ => false end.
Definition is_sleep (e : event) : bool :=
  match e with EvSleep _ => true | _ => false end.
Definition is_start (e : event) : bool :=
  match e with EvStart _ => true | _ => false end.

(** Number of events of one kind in a trace. *)
Definition count (k : event -> bool) (t : list event) : nat :=
  length (List.filter k t).

(** How one turn of the loop body ends: a [return] of the function, or the
    end of the turn with the value the variable [state] then has. *)
Inductive control :=
| Return (v : pyval)
| Next (state : pyval).

Definition default_max_execution : Z := 100.

Section Program.

Context {C : Type} `{AthenaClient C}.

Definition M (A : Type) : Type := world C -> result A * world C.

#[local] Instance M_ret : MRet M := fun A (a : A) (w : world C) => (Ok a, w).

#[local] Instance M_bind : MBind M := fun A B (f : A -> M B) (m : M A) (w : world C) =>
  match m w with
  | (Ok a, w') => f a w'
  | (Raise e, w') => (Raise e, w')
  end.

(** A pure computation that may raise. *)
Definition lift {A} (r : result A) : M A := fun w => (r, w).

Definition log (e : event) (w : world C) : world C :=
  {| client := client w; trace := trace w ++ [e] |}.

Definition call_start (req : start_request) : M pyval :=
  fun w =>
    let (r, c') := start_query_execution req (client w) in
    (r, {| client := c'; trace := trace w ++ [EvStart req] |}).

Definition call_get (query_execution_id : pyval) : M pyval :=
  fun w =>
    let (r, c') := get_query_execution query_execution_id (client w) in
    (r, {| client := c'; trace := trace w ++ [EvGet query_execution_id] |}).

Definition sleep (seconds : Z) : M unit :=
  fun w => (Ok tt, log (EvSleep seconds) w).

Definition print (v : pyval) : M unit :=
  fun w => (Ok tt, log (EvPrint v) w).

(** *** start_athena_query *)

(** The keyword arguments of the call. *)
Definition build_request
  (query database output_bucket output_path : string) : start_request :=
  {| QueryString := query;
     QueryExecutionContext := VDict {[ "Database" := VStr database ]};
     ResultConfiguration :=
       VDict {[ "OutputLocation" :=
                  VStr ("s3://" ++ output_bucket ++ "/" ++ output_path) ]} |}.

Definition start_athena_query
  (query database output_bucket output_path : string) : M pyval :=
  response ← call_start
    (build_request query database output_bucket output_path);
  mret response.

(** *** wait_for_athena_query *)

(** The part of the loop body after [max_execution -= 1]; [max_execution] is
    the decremented value. *)
Definition loop_body (query_execution_id : pyval) (max_execution : Z)
  (state : pyval) : M control :=
  response ← call_get query_execution_id;
  cond ← lift (has_status response);
  ctl ← (if cond : bool then
           state ← lift (state_of response);
           if py_eq_str state "FAILED" then
             print (VStr (failure_message max_execution));;
             status ← lift (status_of response);
             print status;;
             mret (Return (VBool false))
           else if py_eq_str state "SUCCEEDED" then
             filename ← lift (extract_filename response);
             mret (Return (VStr filename))
           else mret (Next state)
         else mret (Next state));
  match ctl with
  | Return v => mret (Return v)
  | Next state => sleep 1;; mret (Next state)
  end.

(** The [while] loop and the [return False] that follows it. *)
Equations? while_loop (query_execution_id : pyval) (max_execution : Z)
  (state : pyval) (w : world C) : result pyval * world C
  by wf (Z.to_nat max_execution) lt :=
  while_loop query_execution_id max_execution state w
    with decide (max_execution > 0) => {
    | right _ => (Ok (VBool false), w)
    | left Hpos with in_progress state => {
      | false => (Ok (VBool false), w)
      | true with loop_body query_execution_id (max_execution - 1) state w => {
        | (Ok (Return v), w') => (Ok v, w')
        | (Ok (Next state'), w') =>
            while_loop query_execution_id (max_execution - 1) state' w'
        | (Raise e, w') => (Raise e, w') } } }.
Proof. lia. Qed.

Definition wait_for_athena_query (query_execution_id : pyval)
  (max_execution : Z) : M pyval :=
  while_loop query_execution_id max_execution (VStr "RUNNING").

(** *** athena_to_s3 *)

Definition athena_to_s3 (query database output_bucket output_path : string)
  (max_execution : Z) : M pyval :=
  execution ← start_athena_query query database output_bucket output_path;
  execution_id ← lift (py_getitem execution "QueryExecutionId");
  wait_for_athena_query execution_id max_execution.

End Program.

(** ** Vocabulary of the statements *)

(** [contains_char c s]: the character [c] occurs in [s]. *)
Fixpoint contains_char (c : ascii) (s : string) : bool :=
  match s with
  | EmptyString => false
  | String c' s' => Ascii.eqb c' c || contains_char c s'
  end.

(** The events of [n] turns of the loop that end in the [sleep]. *)
Fixpoint polls (query_execution_id : pyval) (n : nat) : list event :=
  match n with
  | O => []
  | S n' => EvGet query_execution_id :: EvSleep 1 :: polls query_execution_id n'
  end.

(** The world after a status query answered in client state [c], followed by
    the events [es]. *)
Definition after_get {C} (w : world C) (c : C) (query_execution_id : pyval)
  (es : list event) : world C :=
  {| client := c; trace := trace w ++ EvGet query_execution_id :: es |}.

(** The response reports a state that keeps the loop going. *)
Definition reports_in_progress (response : pyval) : bool :=
  match state_of response with
  | Ok state => in_progress state
  | Raise _ => false
  end.

(** [answers id c rs c']: from the state [c], the client answers successive
    status queries for [id] with the responses [rs], and is then in [c']. *)
Inductive answers {C} `{AthenaClient C} (query_execution_id : pyval)
  : C -> list pyval -> C -> Prop :=
| answers_nil c : answers query_execution_id c [] c
| answers_cons c r c' rs c'' :
    get_query_execution query_execution_id c = (Ok r, c') ->
    answers query_execution_id c' rs c'' ->
    answers query_execution_id c (r :: rs) c''.

(** The first line of [s]: its text up to the first line feed. *)
Fixpoint line_of (s : string) : string :=
  match s with
  | EmptyString => ""
  | String c s' => if Ascii.eqb c Re.LF then "" else String c (line_of s')
  end.

(** What follows the first line of [s]: from the first line feed on. *)
Fixpoint after_line (s : string) : string :=
  match s with
  | EmptyString => ""
  | String c s' => if Ascii.eqb c Re.LF then s else after_line s'
  end.

(** A name without '/' and without line feed. *)
Definition plain_name (s : string) : Prop :=
  contains_char "/" s = false /\ contains_char Re.LF s = false.

Definition is_print (e : event) : bool :=
  match e with EvPrint _ => true | _ => false end.

(** The events a run of the poller for [query_execution_id] may add: turns
    made of the query and the sleep of one second, then nothing more (the
    test of the loop ended the run), or a last query followed only by prints
    (a [return] or an exception ended it). *)
Inductive poller_trace (query_execution_id : pyval) : list event -> Prop :=
| trace_left : poller_trace query_execution_id []
| trace_last prints :
    forallb is_print prints = true ->
    poller_trace query_execution_id (EvGet query_execution_id :: prints)
| trace_turn t :
    poller_trace query_execution_id t ->
    poller_trace query_execution_id
      (EvGet query_execution_id :: EvSleep 1 :: t).

(** The values the poller can return. *)
Definition poller_value (v : pyval) : Prop :=
  v = VBool false \/ exists filename, v = VStr filename /\ plain_name filename.

(** ** A scripted client, for concrete runs

    The client of a test: it answers [start_query_execution] with
    [on_start], and [get_query_execution] with the answers of [on_get] one
    after the other, then with [on_get_after] for ever. *)

Record script := {
  on_start : result pyval;
  on_get : list (result pyval);
  on_get_after : result pyval
}.

#[global] Instance scripted_client : AthenaClient script := {
  start_query_execution _ c := (on_start c, c);
  get_query_execution _ c :=
    match on_get c with
    | r :: rs =>
        (r, {| on_start := on_start c; on_get := rs;
               on_get_after := on_get_after c |})
    | [] => (on_get_after c, c)
    end
}.

(** A status response as the service sends it, reduced to the keys the code
    reads. *)
Definition status_response (state : string) : pyval :=
  VDict {[ "QueryExecution" :=
             VDict {[ "Status" := VDict {[ "State" := VStr state ]} ]} ]}.

Definition succeeded_response (location : pyval) : pyval :=
  VDict {[ "QueryExecution" :=
             VDict (<[ "ResultConfiguration" :=
                         VDict {[ "OutputLocation" := location ]} ]>
                    {[ "Status" := VDict {[ "State" := VStr "SUCCEEDED" ]} ]}) ]}.

(** A client that has one answer to status queries. *)
Definition one_answer (response : pyval) : script :=
  {| on_start := Raise (RemoteError "no submission expected");
     on_get := [Ok response];
     on_get_after := Raise (RemoteError "no further query expected") |}.

Definition fresh {C} (c : C) : world C := {| client := c; trace := [] |}.

(** ** Concrete scenarios *)

(** The handle whose statuses are RUNNING, RUNNING, then SUCCEEDED. *)
Definition two_running_then_succeeded : script :=
  {| on_start := Ok (VDict {[ "QueryExecutionId" := VStr "abc123" ]});
     on_get := [Ok (status_response "RUNNING");
                Ok (status_response "RUNNING");
                Ok (succeeded_response (VStr "s3://bucket/path/result.csv"))];
     on_get_after := Raise (RemoteError "no further query expected") |}.

(** The handle that never reaches a terminal state. *)
Definition always_queued : script :=
  {| on_start := Ok (VDict {[ "QueryExecutionId" := VStr "abc123" ]});
     on_get := [];
     on_get_after := Ok (status_response "QUEUED") |}.

(** Submission returns the handle "abc123"; its statuses end in SUCCEEDED
    with the location "s3://out/x.csv". *)
Definition end_to_end : script :=
  {| on_start := Ok (VDict {[ "QueryExecutionId" := VStr "abc123" ]});
     on_get := [Ok (status_response "QUEUED");
                Ok (status_response "RUNNING");
                Ok (succeeded_response (VStr "s3://out/x.csv"))];
     on_get_after := Raise (RemoteError "no further query expected") |}.

(** The service refuses the submission. *)
Definition refused : script :=
  {| on_start := Raise (RemoteError "AccessDeniedException");
     on_get := [];
     on_get_after := Ok (status_response "SUCCEEDED") |}.

(** A location of two lines: a line feed sits between "a" and "b". *)
Definition two_lines : string := "s3://bucket/a" ++ String Re.LF "b".

(** The client once its scripted answers are used up. *)
Definition used_up (c : script) : script :=
  {| on_start := on_start c; on_get := []; on_get_after := on_get_after c |}.

(** One status QUEUED, then the given answer. *)
Definition queued_then (answer : result pyval) : script :=
  {| on_start := Ok (VDict {[ "QueryExecutionId" := VStr "abc123" ]});
     on_get := [Ok (status_response "QUEUED"); answer];
     on_get_after := Raise (RemoteError "no further query expected") |}.

(** A response whose 'Status' holds no 'State'. *)
Definition status_without_state : pyval :=
  VDict {[ "QueryExecution" := VDict {[ "Status" := VDict ∅ ]} ]}.

(** The submission answers without 'QueryExecutionId'. *)
Definition submission_without_id : script :=
  {| on_start := Ok (VDict {[ "ResponseMetadata" := VDict ∅ ]});
     on_get := [];
     on_get_after := Ok (status_response "SUCCEEDED") |}.

(** SUCCEEDED with a location whose first line holds no slash. *)
Definition note_then_location : string :=
  "results of the day" ++ String Re.LF "s3://bucket/x.csv".


(** ** The orchestrator as the specification words it

    Section 4.3: submit, extract the handle, poll, return the result of the
    poller unchanged.  Written on the world, without the sequencing of the
    embedding, to be compared with [athena_to_s3]. *)
Definition submit_then_poll {C} `{AthenaClient C}
  (query database output_bucket output_path : string) (budget : Z)
  (w : world C) : result pyval * world C :=
  match start_athena_query query database output_bucket output_path w with
  | (Ok execution, w_submitted) =>
      match py_getitem execution "QueryExecutionId" with
      | Ok handle => wait_for_athena_query handle budget w_submitted
      | Raise e => (Raise e, w_submitted)
      end
  | (Raise e, w_submitted) => (Raise e, w_submitted)
  end.

(** * Properties *)

(** ** The extraction pattern *)

Module ReFacts.
Import Re.

Lemma match_star_cons a p c s cap :
  match_here (Star a :: p) (String c s) cap =
  if atom_matches a c then
    match match_here (Star a :: p) s (consume c cap) with
    | Some r => Some r
    | None => match_here p (String c s) cap
    end
  else match_here p (String c s) cap.
Proof. reflexivity. Qed.

Lemma match_star_nil a p cap :
  match_here (Star a :: p) "" cap = match_here p "" cap.
Proof. reflexivity. Qed.

Lemma append_cons c (s t : string) : String c s ++ t = String c (s ++ t).
Proof. reflexivity. Qed.

Lemma append_empty_r (g : string) : g ++ "" = g.
Proof.
  induction g as [|c g IH]; [reflexivity|]. now rewrite append_cons, IH.
Qed.

Lemma append_snoc (g : string) c t : (g ++ String c "") ++ t = g ++ String c t.
Proof.
  induction g as [|c' g IH]; [reflexivity|]. now rewrite !append_cons, IH.
Qed.

Lemma contains_char_app c s t :
  contains_char c (s ++ t) = contains_char c s || contains_char c t.
Proof.
  induction s as [|c' s IH]; [reflexivity|].
  rewrite append_cons. simpl. rewrite IH. apply orb_assoc.
Qed.

(** Inside the group, the star takes a whole line. *)
Lemma group_takes_line t g :
  contains_char LF t = false ->
  match_here [Star Any; GroupClose] t {| is_open := true; text := g |}
  = Some (g ++ t, "").
Proof.
  revert g. induction t as [|c t IH]; intros g Hlf.
  - rewrite match_star_nil. simpl. now rewrite append_empty_r.
  - simpl in Hlf. apply orb_false_elim in Hlf as [Hc Ht].
    rewrite match_star_cons. simpl atom_matches. rewrite Hc. simpl negb.
    unfold consume. simpl is_open. simpl text. cbv iota.
    rewrite (IH _ Ht). now rewrite append_snoc.
Qed.

(** Without a slash there is no match, wherever the attempt starts. *)
Lemma no_slash_no_match s cap :
  contains_char "/" s = false ->
  match_here pattern s cap = None.
Proof.
  unfold pattern. revert cap. induction s as [|c s IH]; intros cap Hs.
  - reflexivity.
  - simpl in Hs. apply orb_false_elim in Hs as [Hc Hs].
    rewrite match_star_cons, (IH _ Hs).
    assert (match_here after_star (String c s) cap = None) as Htail.
    { simpl. rewrite Hc. reflexivity. }
    fold after_star. rewrite Htail. destruct (atom_matches Any c); reflexivity.
Qed.

(** On one line, the leading star runs to the last slash and the group holds
    what follows it. *)
Lemma match_last_segment dir filename cap :
  contains_char LF dir = false ->
  contains_char LF filename = false ->
  contains_char "/" filename = false ->
  is_open cap = false ->
  match_here pattern (dir ++ "/" ++ filename) cap = Some (filename, "").
Proof.
  intros Hdir Hlf Hslash Hcap. induction dir as [|c dir IH].
  - change ("" ++ "/" ++ filename) with (String "/" filename).
    unfold pattern. rewrite match_star_cons. simpl atom_matches. simpl negb.
    cbv iota. fold pattern.
    rewrite (no_slash_no_match _ _ Hslash).
    simpl match_here at 1. cbv iota.
    apply (group_takes_line filename "" Hlf).
  - simpl in Hdir. apply orb_false_elim in Hdir as [Hc Hdir].
    change (String c dir ++ "/" ++ filename)
      with (String c (dir ++ "/" ++ filename)).
    unfold pattern. rewrite match_star_cons. fold pattern.
    simpl atom_matches. rewrite Hc. simpl negb. cbv iota.
    unfold consume. rewrite Hcap. rewrite (IH Hdir). reflexivity.
Qed.

Lemma findall_from_S fuel p s :
  findall_from (S fuel) p s =
  let advance :=
    match s with
    | String _ s' => findall_from fuel p s'
    | EmptyString => []
    end in
  match match_here p s no_capture with
  | Some (g, rest) =>
      g :: (if (String.length rest <? String.length s)%nat
            then findall_from fuel p rest
            else advance)
  | None => advance
  end.
Proof. reflexivity. Qed.

(** The fuel of [findall] is never used up: any two amounts above the length
    of the subject give the same list. *)
Lemma findall_from_fuel p n1 :
  forall n2 s,
    (String.length s < n1)%nat -> (String.length s < n2)%nat ->
    findall_from n1 p s = findall_from n2 p s.
Proof.
  induction n1 as [|n1 IH]; intros n2 s H1 H2; [lia|].
  destruct n2 as [|n2]; [lia|]. rewrite !findall_from_S. cbv zeta.
  assert (match s with
          | String _ s' => findall_from n1 p s'
          | EmptyString => []
          end
          = match s with
            | String _ s' => findall_from n2 p s'
            | EmptyString => []
            end) as Hadvance.
  { destruct s as [|c s']; [reflexivity|]. simpl in H1, H2. apply IH; lia. }
  destruct (match_here p s no_capture) as [[g rest]|]; [|exact Hadvance].
  f_equal. destruct (String.length rest <? String.length s)%nat eqn:Hlt.
  - apply Nat.ltb_lt in Hlt. apply IH; lia.
  - exact Hadvance.
Qed.

Example findall_spec_location :
  findall pattern "s3://my-bucket/folder/sub/query_results.csv"
  = ["query_results.csv"].
Proof. vm_compute. reflexivity. Qed.

Lemma findall_no_slash s :
  contains_char "/" s = false -> findall pattern s = [].
Proof.
  unfold findall. generalize (S (String.length s)) as fuel.
  intros fuel. revert s. induction fuel as [|fuel IH]; intros s Hs.
  - reflexivity.
  - rewrite findall_from_S, (no_slash_no_match _ _ Hs). cbv zeta.
    destruct s as [|c s]; [reflexivity|].
    simpl in Hs. apply orb_false_elim in Hs as [_ Hs]. apply IH, Hs.
Qed.

Lemma findall_last_segment dir filename :
  contains_char LF dir = false ->
  contains_char LF filename = false ->
  contains_char "/" filename = false ->
  findall pattern (dir ++ "/" ++ filename) = [filename].
Proof.
  intros Hdir Hlf Hslash. unfold findall.
  assert (exists n, String.length (dir ++ "/" ++ filename) = S n) as [n Hn].
  { clear. destruct dir; [exists (String.length filename) | rewrite append_cons];
    simpl; eauto. }
  rewrite findall_from_S.
  rewrite (match_last_segment dir filename no_capture Hdir Hlf Hslash eq_refl).
  cbv zeta. rewrite Hn. simpl String.length. simpl Nat.ltb. cbv iota.
  rewrite findall_from_S. reflexivity.
Qed.

End ReFacts.

(** ** The responses *)

Lemma state_of_has_status response state :
  state_of response = Ok state -> has_status response = Ok true.
Proof.
  unfold state_of, status_of, has_status.
  destruct response as [| | | | |d]; try discriminate. simpl.
  destruct (d !! "QueryExecution") as [execution|] eqn:Hexecution;
    [|discriminate].
  rewrite bool_decide_eq_true_2 by eauto. simpl.
  destruct execution as [| | | | |d']; try discriminate. simpl.
  destruct (d' !! "Status") as [status|] eqn:Hstatus; [|discriminate].
  intros _. rewrite bool_decide_eq_true_2 by eauto. reflexivity.
Qed.

Lemma state_of_status_of response state :
  state_of response = Ok state ->
  exists status, status_of response = Ok status
                 /\ py_getitem status "State" = Ok state.
Proof.
  unfold state_of. destruct (status_of response) as [status|e]; simpl;
    [eauto | discriminate].
Qed.

(** A dict without the key 'QueryExecution', or whose 'QueryExecution' is a
    dict without the key 'Status', fails the test of the [if]. *)
Lemma lacking_keys_has_status (d : gmap string pyval) :
  d !! "QueryExecution" = None
  \/ (exists execution : gmap string pyval,
         d !! "QueryExecution" = Some (VDict execution)
         /\ execution !! "Status" = None) ->
  has_status (VDict d) = Ok false.
Proof.
  unfold has_status. simpl. intros [Hnone | (execution & Hsome & Hnone)].
  - rewrite Hnone. rewrite bool_decide_eq_false_2; [reflexivity|].
    intros [? ?]; discriminate.
  - rewrite Hsome. rewrite bool_decide_eq_true_2 by eauto. simpl.
    rewrite Hnone.
    rewrite bool_decide_eq_false_2; [reflexivity|].
    intros [? ?]; discriminate.
Qed.

(** ** The extraction on a response *)

Lemma extract_filename_last_segment response dir filename :
  output_location_of response = Ok (VStr (dir ++ "/" ++ filename)) ->
  contains_char Re.LF dir = false ->
  contains_char Re.LF filename = false ->
  contains_char "/" filename = false ->
  extract_filename response = Ok filename.
Proof.
  intros Hloc Hdir Hlf Hslash. unfold extract_filename. rewrite Hloc. simpl.
  rewrite (ReFacts.findall_last_segment dir filename Hdir Hlf Hslash).
  reflexivity.
Qed.

Lemma extract_filename_no_slash response location :
  output_location_of response = Ok (VStr location) ->
  contains_char "/" location = false ->
  extract_filename response = Raise IndexError.
Proof.
  intros Hloc Hslash. unfold extract_filename. rewrite Hloc. simpl.
  rewrite (ReFacts.findall_no_slash location Hslash). reflexivity.
Qed.

(** ** One turn of the loop *)

Section Turns.

Context {C : Type} `{AthenaClient C}.

Implicit Types (w : world C) (c : C) (id state response : pyval).

Ltac run_body Hget :=
  unfold loop_body, mbind, M_bind, call_get, lift, print, sleep, log, mret,
    M_ret, after_get; rewrite Hget; cbn [client trace].

Ltac same_world := cbn [client trace]; rewrite <- ?app_assoc; reflexivity.

Lemma loop_body_no_status id m state w response c :
  get_query_execution id (client w) = (Ok response, c) ->
  has_status response = Ok false ->
  loop_body id m state w = (Ok (Next state), after_get w c id [EvSleep 1]).
Proof.
  intros Hget Hcond. run_body Hget. rewrite Hcond. same_world.
Qed.

Lemma loop_body_in_progress id m state w response c :
  get_query_execution id (client w) = (Ok response, c) ->
  reports_in_progress response = true ->
  exists state',
    in_progress state' = true
    /\ loop_body id m state w = (Ok (Next state'), after_get w c id [EvSleep 1]).
Proof.
  intros Hget Hrep. unfold reports_in_progress in Hrep.
  destruct (state_of response) as [state'|e] eqn:Hstate; [|discriminate].
  exists state'. split; [exact Hrep|].
  run_body Hget. rewrite (state_of_has_status _ _ Hstate), Hstate.
  destruct state' as [| | |s| |]; try discriminate.
  unfold in_progress in Hrep. simpl in *.
  apply orb_true_iff in Hrep as [Heq|Heq]; apply String.eqb_eq in Heq;
    subst s; simpl; same_world.
Qed.

Lemma loop_body_failed id m state w response c :
  get_query_execution id (client w) = (Ok response, c) ->
  state_of response = Ok (VStr "FAILED") ->
  exists status,
    status_of response = Ok status
    /\ loop_body id m state w =
       (Ok (Return (VBool false)),
        after_get w c id [EvPrint (VStr (failure_message m)); EvPrint status]).
Proof.
  intros Hget Hstate.
  destruct (state_of_status_of _ _ Hstate) as (status & Hstatus & _).
  exists status. split; [exact Hstatus|].
  run_body Hget. rewrite (state_of_has_status _ _ Hstate), Hstate. simpl.
  rewrite Hstatus. same_world.
Qed.

Lemma loop_body_succeeded id m state w response c :
  get_query_execution id (client w) = (Ok response, c) ->
  state_of response = Ok (VStr "SUCCEEDED") ->
  loop_body id m state w =
  (match extract_filename response with
   | Ok filename => Ok (Return (VStr filename))
   | Raise e => Raise e
   end, after_get w c id []).
Proof.
  intros Hget Hstate.
  run_body Hget. rewrite (state_of_has_status _ _ Hstate), Hstate. simpl.
  destruct (extract_filename response); same_world.
Qed.

(** ** The loop *)

Lemma while_loop_eq id m state w :
  while_loop id m state w =
  if bool_decide (m > 0) && in_progress state then
    match loop_body id (m - 1) state w with
    | (Ok (Return v), w') => (Ok v, w')
    | (Ok (Next state'), w') => while_loop id (m - 1) state' w'
    | (Raise e, w') => (Raise e, w')
    end
  else (Ok (VBool false), w).
Proof.
  simp while_loop. destruct (decide (m > 0)) as [Hm|Hm]; simpl.
  - rewrite bool_decide_eq_true_2 by exact Hm. simpl.
    destruct (in_progress state); simpl; [|reflexivity].
    destruct (loop_body id (m - 1) state w) as [[[v|state']|e] w']; reflexivity.
  - rewrite bool_decide_eq_false_2 by exact Hm. reflexivity.
Qed.

Lemma while_loop_turn id m state w :
  m > 0 -> in_progress state = true ->
  while_loop id m state w =
  match loop_body id (m - 1) state w with
  | (Ok (Return v), w') => (Ok v, w')
  | (Ok (Next state'), w') => while_loop id (m - 1) state' w'
  | (Raise e, w') => (Raise e, w')
  end.
Proof.
  intros Hm Hst. rewrite while_loop_eq, Hst.
  now rewrite bool_decide_eq_true_2 by exact Hm.
Qed.

Lemma while_loop_exhausted id m state w :
  m <= 0 -> while_loop id m state w = (Ok (VBool false), w).
Proof.
  intros Hm. rewrite while_loop_eq.
  rewrite bool_decide_eq_false_2 by lia. reflexivity.
Qed.

(** Turns answered with a state in progress: each one costs one unit of the
    budget, one status query and one sleep. *)
Lemma while_loop_polls id rs :
  forall m state w c,
    answers id (client w) rs c ->
    forallb reports_in_progress rs = true ->
    Z.of_nat (length rs) <= m ->
    in_progress state = true ->
    exists state',
      in_progress state' = true
      /\ while_loop id m state w =
         while_loop id (m - Z.of_nat (length rs)) state'
           {| client := c; trace := trace w ++ polls id (length rs) |}.
Proof.
  induction rs as [|r rs IH]; intros m state w c Hans Hrs Hm Hstate.
  - inversion Hans; subst. exists state. split; [exact Hstate|].
    destruct w as [cw tw]. simpl. now rewrite Z.sub_0_r, app_nil_r.
  - inversion Hans as [|c0 r0 c1 rs0 c2 Hget Hrest]; subst.
    simpl in Hrs. apply andb_true_iff in Hrs as [Hr Hrs].
    simpl length in Hm.
    destruct (loop_body_in_progress id (m - 1) state w r c1 Hget Hr)
      as (state1 & Hstate1 & Hbody).
    rewrite while_loop_turn, Hbody by (lia || assumption).
    destruct (IH (m - 1) state1 (after_get w c1 id [EvSleep 1]) c Hrest Hrs
                ltac:(lia) Hstate1) as (state' & Hstate' & Hloop).
    exists state'. split; [exact Hstate'|].
    rewrite Hloop. unfold after_get. cbn [client trace].
    rewrite <- app_assoc. simpl length. simpl polls.
    replace (m - 1 - Z.of_nat (length rs)) with (m - Z.of_nat (S (length rs)))
      by lia.
    reflexivity.
Qed.

(** ** Counting events *)

Lemma count_app k (t1 t2 : list event) :
  count k (t1 ++ t2) = (count k t1 + count k t2)%nat.
Proof. unfold count. now rewrite List.filter_app, length_app. Qed.

Lemma count_get_polls id n : count is_get (polls id n) = n.
Proof. induction n as [|n IH]; [reflexivity|]. unfold count in *. simpl. now rewrite IH. Qed.

Lemma count_sleep_polls id n : count is_sleep (polls id n) = n.
Proof. induction n as [|n IH]; [reflexivity|]. unfold count in *. simpl. now rewrite IH. Qed.

(** The poller never submits. *)
Ltac count_events :=
  cbn [client trace snd]; rewrite ?count_app; unfold count; simpl; lia.

Lemma loop_body_starts id m state w :
  count is_start (trace (snd (loop_body id m state w)))
  = count is_start (trace w).
Proof.
  unfold loop_body, mbind, M_bind, call_get, lift, print, sleep, log, mret,
    M_ret.
  destruct (get_query_execution id (client w)) as [[r|e] c];
    [|count_events].
  destruct (has_status r) as [[|]|e]; [|count_events..].
  destruct (state_of r) as [v|e]; [|count_events].
  destruct (py_eq_str v "FAILED").
  - destruct (status_of r); count_events.
  - destruct (py_eq_str v "SUCCEEDED"); [|count_events].
    destruct (extract_filename r); count_events.
Qed.

Lemma while_loop_starts id m :
  forall state w,
    count is_start (trace (snd (while_loop id m state w)))
    = count is_start (trace w).
Proof.
  remember (Z.to_nat m) as n eqn:Hn. revert m Hn.
  induction n as [|n IH]; intros m Hn state w; rewrite while_loop_eq.
  - rewrite bool_decide_eq_false_2 by lia. reflexivity.
  - destruct (bool_decide (m > 0) && in_progress state); [|reflexivity].
    pose proof (loop_body_starts id (m - 1) state w) as Hbody.
    destruct (loop_body id (m - 1) state w) as [[[v|state']|e] w'];
      simpl in *; try exact Hbody.
    rewrite IH by lia. exact Hbody.
Qed.

End Turns.

(** ** Whole runs of the poller *)

Section Runs.

Context {C : Type} `{AthenaClient C}.

Implicit Types (w : world C) (c : C) (id state response : pyval).

Lemma answers_snoc id c rs r c' :
  answers id c (rs ++ [r]) c' ->
  exists c1, answers id c rs c1 /\ get_query_execution id c1 = (Ok r, c').
Proof.
  revert c. induction rs as [|r0 rs IH]; intros c Hans.
  - inversion Hans as [|? ? ? ? ? Hget Hrest]; subst.
    inversion Hrest; subst. exists c. split; [constructor | exact Hget].
  - inversion Hans as [|? ? c0 ? ? Hget Hrest]; subst.
    destruct (IH _ Hrest) as (c1 & Hrs & Hlast).
    exists c1. split; [econstructor; eassumption | exact Hlast].
Qed.

(** The run that meets SUCCEEDED after [length rs] turns in progress. *)
Lemma poller_meets_succeeded id m w rs r c :
  answers id (client w) (rs ++ [r]) c ->
  forallb reports_in_progress rs = true ->
  Z.of_nat (length rs) < m ->
  state_of r = Ok (VStr "SUCCEEDED") ->
  wait_for_athena_query id m w =
  (match extract_filename r with
   | Ok filename => Ok (VStr filename)
   | Raise e => Raise e
   end,
   {| client := c; trace := trace w ++ polls id (length rs) ++ [EvGet id] |}).
Proof.
  intros Hans Hrs Hm Hstate.
  destruct (answers_snoc _ _ _ _ _ Hans) as (c1 & Hans1 & Hget).
  unfold wait_for_athena_query.
  destruct (while_loop_polls id rs m (VStr "RUNNING") w c1 Hans1 Hrs
              ltac:(lia) eq_refl) as (state' & Hstate' & ->).
  set (w1 := {| client := c1; trace := trace w ++ polls id (length rs) |}).
  rewrite while_loop_turn by (lia || assumption).
  rewrite (loop_body_succeeded id _ state' w1 r c Hget Hstate).
  unfold after_get, w1. cbn [client trace]. rewrite <- app_assoc.
  destruct (extract_filename r); reflexivity.
Qed.

(** The run that stays in progress until the budget is used up. *)
Lemma poller_times_out id m w rs c :
  answers id (client w) rs c ->
  forallb reports_in_progress rs = true ->
  Z.of_nat (length rs) = m ->
  wait_for_athena_query id m w =
  (Ok (VBool false),
   {| client := c; trace := trace w ++ polls id (length rs) |}).
Proof.
  intros Hans Hrs Hm. unfold wait_for_athena_query.
  destruct (while_loop_polls id rs m (VStr "RUNNING") w c Hans Hrs
              ltac:(lia) eq_refl) as (state' & Hstate' & ->).
  apply while_loop_exhausted. lia.
Qed.

(** The run whose first answer is FAILED. *)
Lemma poller_meets_failed id m w r c :
  m > 0 ->
  get_query_execution id (client w) = (Ok r, c) ->
  state_of r = Ok (VStr "FAILED") ->
  exists status,
    status_of r = Ok status
    /\ wait_for_athena_query id m w =
       (Ok (VBool false),
        {| client := c;
           trace := trace w ++ [EvGet id;
                                EvPrint (VStr (failure_message (m - 1)));
                                EvPrint status] |}).
Proof.
  intros Hm Hget Hstate.
  destruct (loop_body_failed id (m - 1) (VStr "RUNNING") w r c Hget Hstate)
    as (status & Hstatus & Hbody).
  exists status. split; [exact Hstatus|].
  unfold wait_for_athena_query.
  rewrite while_loop_turn, Hbody by (assumption || reflexivity).
  reflexivity.
Qed.

End Runs.

(** * The claims *)

(** ** The poller *)

(** C10: for every attempt budget less than or equal to 0 the poller returns
    False at once; the world is untouched, so it has performed no status
    query and no sleep. *)
Theorem poller_nonpositive_budget {C} `{AthenaClient C}
  (id : pyval) (m : Z) (w : world C) :
  m <= 0 ->
  wait_for_athena_query id m w = (Ok (VBool false), w).
Proof. intros Hm. apply while_loop_exhausted, Hm. Qed.

Lemma poller_nonpositive_budget_witness :
  wait_for_athena_query (VStr "abc123") (-3) (fresh always_queued)
  = (Ok (VBool false), fresh always_queued).
Proof.
  apply (poller_nonpositive_budget (VStr "abc123") (-3) (fresh always_queued)).
  lia.
Defined.

(** C3: with a positive attempt budget [m], when the first status response is
    FAILED the poller returns False after exactly one status query: the
    events of the run are that query and the two prints, the printed budget
    is [m - 1], and there is no sleep and no further query. *)
Theorem poller_failed_first {C} `{AthenaClient C}
  (id : pyval) (m : Z) (w : world C) (response : pyval) (c : C) :
  m > 0 ->
  get_query_execution id (client w) = (Ok response, c) ->
  state_of response = Ok (VStr "FAILED") ->
  exists status w',
    status_of response = Ok status
    /\ wait_for_athena_query id m w = (Ok (VBool false), w')
    /\ client w' = c
    /\ trace w' = (trace w ++ [EvGet id;
                               EvPrint (VStr (failure_message (m - 1)));
                               EvPrint status])%list
    /\ count is_get (trace w') = (count is_get (trace w) + 1)%nat
    /\ count is_sleep (trace w') = count is_sleep (trace w).
Proof.
  intros Hm Hget Hstate.
  destruct (poller_meets_failed id m w response c Hm Hget Hstate)
    as (status & Hstatus & Hrun).
  eexists status, _. split; [exact Hstatus|]. split; [exact Hrun|].
  cbn [client trace]. repeat split; rewrite count_app; unfold count; simpl; lia.
Qed.

Lemma poller_failed_first_witness :
  exists status w',
    status_of (status_response "FAILED") = Ok status
    /\ wait_for_athena_query (VStr "abc123") 7
         (fresh (one_answer (status_response "FAILED")))
       = (Ok (VBool false), w')
    /\ client w' = used_up (one_answer (status_response "FAILED"))
    /\ trace w' = ([] ++ [EvGet (VStr "abc123");
                          EvPrint (VStr (failure_message (7 - 1)));
                          EvPrint status])%list
    /\ count is_get (trace w') = (0 + 1)%nat
    /\ count is_sleep (trace w') = 0%nat.
Proof.
  apply (poller_failed_first (VStr "abc123") 7
           (fresh (one_answer (status_response "FAILED")))
           (status_response "FAILED")
           (used_up (one_answer (status_response "FAILED")))).
  - lia.
  - reflexivity.
  - vm_compute. reflexivity.
Defined.

(** C4: for every positive attempt budget [n], when the [n] status responses
    the poller receives all report a state in {QUEUED, RUNNING}, the run
    consists of exactly [n] status queries, each followed by a sleep of one
    second, and then returns False. *)
Theorem poller_exhausts_budget {C} `{AthenaClient C}
  (id : pyval) (n : nat) (w : world C) (responses : list pyval) (c : C) :
  (0 < n)%nat ->
  length responses = n ->
  answers id (client w) responses c ->
  forallb reports_in_progress responses = true ->
  wait_for_athena_query id (Z.of_nat n) w
  = (Ok (VBool false), {| client := c; trace := trace w ++ polls id n |})
  /\ count is_get (polls id n) = n
  /\ count is_sleep (polls id n) = n.
Proof.
  intros _ Hlen Hans Hrs. subst n.
  split; [|split; [apply count_get_polls | apply count_sleep_polls]].
  apply poller_times_out; [exact Hans | exact Hrs | reflexivity].
Qed.

Lemma poller_exhausts_budget_witness :
  wait_for_athena_query (VStr "abc123") 3 (fresh always_queued)
  = (Ok (VBool false),
     {| client := always_queued;
        trace := [EvGet (VStr "abc123"); EvSleep 1;
                  EvGet (VStr "abc123"); EvSleep 1;
                  EvGet (VStr "abc123"); EvSleep 1] |})
  /\ count is_get (polls (VStr "abc123") 3) = 3%nat
  /\ count is_sleep (polls (VStr "abc123") 3) = 3%nat.
Proof.
  apply (poller_exhausts_budget (VStr "abc123") 3 (fresh always_queued)
           [status_response "QUEUED"; status_response "QUEUED";
            status_response "QUEUED"] always_queued).
  - lia.
  - reflexivity.
  - repeat (econstructor; [reflexivity|]). constructor.
  - vm_compute. reflexivity.
Defined.

(** C2: with the default budget of 100, when the successive status responses
    are RUNNING, RUNNING, then SUCCEEDED with output location
    "s3://bucket/path/result.csv", the poller returns "result.csv" and its
    run holds exactly 3 status queries. *)
Theorem poller_three_checks {C} `{AthenaClient C}
  (id : pyval) (w : world C) (r1 r2 r3 : pyval) (c : C) :
  answers id (client w) [r1; r2; r3] c ->
  state_of r1 = Ok (VStr "RUNNING") ->
  state_of r2 = Ok (VStr "RUNNING") ->
  state_of r3 = Ok (VStr "SUCCEEDED") ->
  output_location_of r3 = Ok (VStr "s3://bucket/path/result.csv") ->
  wait_for_athena_query id default_max_execution w
  = (Ok (VStr "result.csv"),
     {| client := c;
        trace := trace w ++ [EvGet id; EvSleep 1; EvGet id; EvSleep 1;
                             EvGet id] |})
  /\ count is_get [EvGet id; EvSleep 1; EvGet id; EvSleep 1; EvGet id] = 3%nat.
Proof.
  intros Hans H1 H2 H3 Hloc. split; [|reflexivity].
  rewrite (poller_meets_succeeded id default_max_execution w [r1; r2] r3 c
             Hans).
  - unfold extract_filename. rewrite Hloc. reflexivity.
  - unfold reports_in_progress. simpl. rewrite H1, H2. reflexivity.
  - reflexivity.
  - exact H3.
Qed.

Lemma poller_three_checks_witness :
  wait_for_athena_query (VStr "abc123") default_max_execution
    (fresh two_running_then_succeeded)
  = (Ok (VStr "result.csv"),
     {| client := used_up two_running_then_succeeded;
        trace := [] ++ [EvGet (VStr "abc123"); EvSleep 1;
                        EvGet (VStr "abc123"); EvSleep 1;
                        EvGet (VStr "abc123")] |})
  /\ count is_get [EvGet (VStr "abc123"); EvSleep 1;
                   EvGet (VStr "abc123"); EvSleep 1;
                   EvGet (VStr "abc123")] = 3%nat.
Proof.
  apply (poller_three_checks (VStr "abc123") (fresh two_running_then_succeeded)
           (status_response "RUNNING") (status_response "RUNNING")
           (succeeded_response (VStr "s3://bucket/path/result.csv"))
           (used_up two_running_then_succeeded)).
  - repeat (econstructor; [reflexivity|]). constructor.
  - vm_compute. reflexivity.
  - vm_compute. reflexivity.
  - vm_compute. reflexivity.
  - vm_compute. reflexivity.
Defined.

(** C6: a run that uses up its budget without meeting a terminal state and a
    run that meets FAILED return the same value, False. *)
Theorem timeout_same_value_as_failed {C} `{AthenaClient C}
  (id_t : pyval) (m_t : Z) (w_t : world C) (responses : list pyval) (c_t : C)
  (id_f : pyval) (m_f : Z) (w_f : world C) (response : pyval) (c_f : C) :
  m_t > 0 ->
  Z.of_nat (length responses) = m_t ->
  answers id_t (client w_t) responses c_t ->
  forallb reports_in_progress responses = true ->
  m_f > 0 ->
  get_query_execution id_f (client w_f) = (Ok response, c_f) ->
  state_of response = Ok (VStr "FAILED") ->
  fst (wait_for_athena_query id_t m_t w_t) = Ok (VBool false)
  /\ fst (wait_for_athena_query id_f m_f w_f) = Ok (VBool false)
  /\ fst (wait_for_athena_query id_t m_t w_t)
     = fst (wait_for_athena_query id_f m_f w_f).
Proof.
  intros _ Hlen Hans Hrs Hm Hget Hstate.
  rewrite (poller_times_out id_t m_t w_t responses c_t Hans Hrs Hlen).
  destruct (poller_meets_failed id_f m_f w_f response c_f Hm Hget Hstate)
    as (status & _ & ->).
  repeat split.
Qed.

Lemma timeout_same_value_as_failed_witness :
  fst (wait_for_athena_query (VStr "abc123") 3 (fresh always_queued))
  = Ok (VBool false)
  /\ fst (wait_for_athena_query (VStr "abc123") 7
            (fresh (one_answer (status_response "FAILED"))))
     = Ok (VBool false)
  /\ fst (wait_for_athena_query (VStr "abc123") 3 (fresh always_queued))
     = fst (wait_for_athena_query (VStr "abc123") 7
              (fresh (one_answer (status_response "FAILED")))).
Proof.
  apply (timeout_same_value_as_failed
           (VStr "abc123") 3 (fresh always_queued)
           [status_response "QUEUED"; status_response "QUEUED";
            status_response "QUEUED"] always_queued
           (VStr "abc123") 7 (fresh (one_answer (status_response "FAILED")))
           (status_response "FAILED")
           (used_up (one_answer (status_response "FAILED")))).
  - lia.
  - reflexivity.
  - repeat (econstructor; [reflexivity|]). constructor.
  - vm_compute. reflexivity.
  - lia.
  - reflexivity.
  - vm_compute. reflexivity.
Defined.

(** C8: a status response that is a dict without the key 'QueryExecution',
    or whose 'QueryExecution' is a dict without the key 'Status', neither
    raises nor ends the run: the turn costs one unit of the budget, performs
    the query and the sleep, and the loop goes on with the state it had
    (RUNNING at the first turn). *)
Theorem missing_keys_keep_polling {C} `{AthenaClient C}
  (id : pyval) (m : Z) (state : pyval) (w : world C)
  (d : gmap string pyval) (c : C) :
  m > 0 ->
  in_progress state = true ->
  get_query_execution id (client w) = (Ok (VDict d), c) ->
  d !! "QueryExecution" = None
  \/ (exists execution : gmap string pyval,
         d !! "QueryExecution" = Some (VDict execution)
         /\ execution !! "Status" = None) ->
  while_loop id m state w
  = while_loop id (m - 1) state
      {| client := c; trace := trace w ++ [EvGet id; EvSleep 1] |}
  /\ wait_for_athena_query id m w
     = while_loop id (m - 1) (VStr "RUNNING")
         {| client := c; trace := trace w ++ [EvGet id; EvSleep 1] |}.
Proof.
  intros Hm Hstate Hget Hlack.
  pose proof (lacking_keys_has_status d Hlack) as Hcond.
  unfold wait_for_athena_query. split.
  - rewrite while_loop_turn by assumption.
    now rewrite (loop_body_no_status id (m - 1) state w (VDict d) c Hget Hcond).
  - rewrite while_loop_turn by (assumption || reflexivity).
    now rewrite (loop_body_no_status id (m - 1) _ w (VDict d) c Hget Hcond).
Qed.

Lemma missing_keys_keep_polling_witness :
  while_loop (VStr "abc123") 2 (VStr "QUEUED") (fresh (one_answer (VDict ∅)))
  = while_loop (VStr "abc123") (2 - 1) (VStr "QUEUED")
      {| client := used_up (one_answer (VDict ∅));
         trace := [] ++ [EvGet (VStr "abc123"); EvSleep 1] |}
  /\ wait_for_athena_query (VStr "abc123") 2 (fresh (one_answer (VDict ∅)))
     = while_loop (VStr "abc123") (2 - 1) (VStr "RUNNING")
         {| client := used_up (one_answer (VDict ∅));
            trace := [] ++ [EvGet (VStr "abc123"); EvSleep 1] |}.
Proof.
  apply (missing_keys_keep_polling (VStr "abc123") 2 (VStr "QUEUED")
           (fresh (one_answer (VDict ∅))) ∅ (used_up (one_answer (VDict ∅)))).
  - lia.
  - reflexivity.
  - reflexivity.
  - left. reflexivity.
Defined.

(** ** The extraction of the file name *)

(** C1 (the code falls short of it): the claim asks for the text after the
    last '/' of the location, which is what the greedy pattern of the source
    is written to take and what the docstring promises, the name of the file
    in S3.  The location [two_lines ++ "/c.csv"], that is "s3://bucket/a",
    a line feed, "b/c.csv", contains '/', the text after its last '/' is
    "c.csv", and the poller returns "a": the dot of the pattern does not
    pass the line feed, and the first match is the one returned. *)
Lemma last_segment_missed_on_two_lines :
  contains_char "/" "c.csv" = false
  /\ fst (wait_for_athena_query (VStr "abc123") default_max_execution
            (fresh (one_answer
                      (succeeded_response (VStr (two_lines ++ "/" ++ "c.csv"))))))
     = Ok (VStr "a")
  /\ "a" <> "c.csv".
Proof. split; [reflexivity|]. split; [vm_compute; reflexivity | discriminate]. Qed.

(** Where the poller does return the last segment: when it meets SUCCEEDED
    and the output location is [dir ++ "/" ++ filename] with no '/' in
    [filename] and no line feed in the location, it returns [filename], the
    text after the last '/'.  For
    "s3://my-bucket/folder/sub/query_results.csv" this is
    "query_results.csv". *)
Theorem poller_returns_last_segment {C} `{AthenaClient C}
  (id : pyval) (m : Z) (w : world C) (responses : list pyval)
  (response : pyval) (c : C) (dir filename : string) :
  answers id (client w) (responses ++ [response]) c ->
  forallb reports_in_progress responses = true ->
  Z.of_nat (length responses) < m ->
  state_of response = Ok (VStr "SUCCEEDED") ->
  output_location_of response = Ok (VStr (dir ++ "/" ++ filename)) ->
  contains_char "/" filename = false ->
  contains_char Re.LF (dir ++ "/" ++ filename) = false ->
  fst (wait_for_athena_query id m w) = Ok (VStr filename).
Proof.
  intros Hans Hrs Hm Hstate Hloc Hslash Hlf.
  rewrite !ReFacts.contains_char_app in Hlf.
  apply orb_false_elim in Hlf as [Hdir Hlf].
  apply orb_false_elim in Hlf as [_ Hlf].
  rewrite (poller_meets_succeeded id m w responses response c Hans Hrs Hm
             Hstate).
  now rewrite (extract_filename_last_segment response dir filename Hloc Hdir
                 Hlf Hslash).
Qed.

Lemma poller_returns_last_segment_witness :
  fst (wait_for_athena_query (VStr "abc123") default_max_execution
         (fresh (one_answer
                   (succeeded_response
                      (VStr "s3://my-bucket/folder/sub/query_results.csv")))))
  = Ok (VStr "query_results.csv").
Proof.
  apply (poller_returns_last_segment (VStr "abc123") default_max_execution
           (fresh (one_answer
                     (succeeded_response
                        (VStr "s3://my-bucket/folder/sub/query_results.csv"))))
           []
           (succeeded_response
              (VStr "s3://my-bucket/folder/sub/query_results.csv"))
           (used_up (one_answer
                       (succeeded_response
                          (VStr "s3://my-bucket/folder/sub/query_results.csv"))))
           "s3://my-bucket/folder/sub" "query_results.csv").
  - econstructor; [reflexivity | constructor].
  - reflexivity.
  - reflexivity.
  - vm_compute. reflexivity.
  - vm_compute. reflexivity.
  - reflexivity.
  - reflexivity.
Defined.

(** C9 (the code falls short of it): the claim has the poller return the
    empty string for a location that ends in '/'.  The location
    [two_lines ++ "/"], that is "s3://bucket/a", a line feed, "b/", ends in
    '/', and the poller returns "a", not the empty string.  The cause is the
    one of C1: the dot of the pattern does not pass the line feed, and the
    first match is the one returned. *)
Lemma trailing_slash_missed_on_two_lines :
  fst (wait_for_athena_query (VStr "abc123") default_max_execution
         (fresh (one_answer (succeeded_response (VStr (two_lines ++ "/"))))))
  = Ok (VStr "a")
  /\ "a" <> "".
Proof. split; [vm_compute; reflexivity | discriminate]. Qed.

(** Where the extraction behaves as described: when the poller meets
    SUCCEEDED, for an output location without line feed that ends in '/' it
    returns the empty string, and for an output location that contains no
    '/' at all the extraction raises IndexError (the list of matches is
    empty); so the success branch returns a value only for locations that
    contain a '/'. *)
Theorem extraction_is_partial {C} `{AthenaClient C}
  (id : pyval) (m : Z) (w : world C) (responses : list pyval)
  (response : pyval) (c : C) (location : string) :
  answers id (client w) (responses ++ [response]) c ->
  forallb reports_in_progress responses = true ->
  Z.of_nat (length responses) < m ->
  state_of response = Ok (VStr "SUCCEEDED") ->
  output_location_of response = Ok (VStr location) ->
  (forall dir,
      location = dir ++ "/" -> contains_char Re.LF dir = false ->
      fst (wait_for_athena_query id m w) = Ok (VStr ""))
  /\ (contains_char "/" location = false ->
      fst (wait_for_athena_query id m w) = Raise IndexError).
Proof.
  intros Hans Hrs Hm Hstate Hloc.
  rewrite (poller_meets_succeeded id m w responses response c Hans Hrs Hm
             Hstate).
  split.
  - intros dir -> Hdir.
    now rewrite (extract_filename_last_segment response dir "" Hloc Hdir
                   eq_refl eq_refl).
  - intros Hslash.
    now rewrite (extract_filename_no_slash response location Hloc Hslash).
Qed.

Lemma extraction_is_partial_witness :
  fst (wait_for_athena_query (VStr "abc123") default_max_execution
         (fresh (one_answer (succeeded_response (VStr "s3://bucket/folder/")))))
  = Ok (VStr "")
  /\ fst (wait_for_athena_query (VStr "abc123") default_max_execution
            (fresh (one_answer (succeeded_response (VStr "result.csv")))))
     = Raise IndexError.
Proof.
  split.
  - apply (extraction_is_partial (VStr "abc123") default_max_execution
             (fresh (one_answer
                       (succeeded_response (VStr "s3://bucket/folder/"))))
             [] (succeeded_response (VStr "s3://bucket/folder/"))
             (used_up (one_answer
                         (succeeded_response (VStr "s3://bucket/folder/"))))
             "s3://bucket/folder/"
             ltac:(econstructor; [reflexivity | constructor])
             eq_refl eq_refl eq_refl eq_refl)
      with (dir := "s3://bucket/folder"); reflexivity.
  - apply (extraction_is_partial (VStr "abc123") default_max_execution
             (fresh (one_answer (succeeded_response (VStr "result.csv"))))
             [] (succeeded_response (VStr "result.csv"))
             (used_up (one_answer (succeeded_response (VStr "result.csv"))))
             "result.csv"
             ltac:(econstructor; [reflexivity | constructor])
             eq_refl eq_refl eq_refl eq_refl).
    reflexivity.
Defined.

(** ** The submitter and the orchestrator *)

(** C7: an error raised by the remote submission call is the outcome of the
    submitter and of the orchestrator, unchanged; the run consists of that
    one call: no second submission, no status query, no value False. *)
Theorem submission_error_propagates {C} `{AthenaClient C}
  (query database output_bucket output_path : string) (max_execution : Z)
  (w : world C) (e : exn) (c : C) :
  start_query_execution
    (build_request query database output_bucket output_path) (client w)
  = (Raise e, c) ->
  start_athena_query query database output_bucket output_path w
  = (Raise e,
     {| client := c;
        trace := trace w ++
                 [EvStart (build_request query database output_bucket
                             output_path)] |})
  /\ athena_to_s3 query database output_bucket output_path max_execution w
     = (Raise e,
        {| client := c;
           trace := trace w ++
                    [EvStart (build_request query database output_bucket
                                output_path)] |}).
Proof.
  intros Hstart.
  unfold athena_to_s3, start_athena_query, mbind, M_bind, call_start.
  rewrite Hstart. split; reflexivity.
Qed.

Lemma submission_error_propagates_witness :
  start_athena_query "SELECT 1" "db" "out" "results/" (fresh refused)
  = (Raise (RemoteError "AccessDeniedException"),
     {| client := refused;
        trace := [] ++ [EvStart (build_request "SELECT 1" "db" "out"
                                   "results/")] |})
  /\ athena_to_s3 "SELECT 1" "db" "out" "results/" default_max_execution
       (fresh refused)
     = (Raise (RemoteError "AccessDeniedException"),
        {| client := refused;
           trace := [] ++ [EvStart (build_request "SELECT 1" "db" "out"
                                      "results/")] |}).
Proof.
  apply (submission_error_propagates "SELECT 1" "db" "out" "results/"
           default_max_execution (fresh refused)
           (RemoteError "AccessDeniedException") refused).
  reflexivity.
Defined.

(** C5: for every input the orchestrator is the composition the
    specification describes: it submits exactly once, takes
    'QueryExecutionId' from the answer, polls with it and with the given
    budget, and its outcome is that of the poller.  When the submission
    answers with the identifier "abc123" and the statuses end in SUCCEEDED
    with the location "s3://out/x.csv" within the budget, the value returned
    is "x.csv". *)
Theorem orchestrator_is_submit_then_poll {C} `{AthenaClient C}
  (query database output_bucket output_path : string) (max_execution : Z)
  (w : world C) :
  athena_to_s3 query database output_bucket output_path max_execution w
  = submit_then_poll query database output_bucket output_path max_execution w
  /\ count is_start
       (trace (snd (athena_to_s3 query database output_bucket output_path
                      max_execution w)))
     = (count is_start (trace w) + 1)%nat
  /\ (forall (execution : pyval) (c1 : C) (responses : list pyval)
             (response : pyval) (c2 : C),
         start_query_execution
           (build_request query database output_bucket output_path) (client w)
         = (Ok execution, c1) ->
         py_getitem execution "QueryExecutionId" = Ok (VStr "abc123") ->
         answers (VStr "abc123") c1 (responses ++ [response]) c2 ->
         forallb reports_in_progress responses = true ->
         Z.of_nat (length responses) < max_execution ->
         state_of response = Ok (VStr "SUCCEEDED") ->
         output_location_of response = Ok (VStr "s3://out/x.csv") ->
         fst (athena_to_s3 query database output_bucket output_path
                max_execution w)
         = Ok (VStr "x.csv")).
Proof.
  assert (athena_to_s3 query database output_bucket output_path max_execution w
          = submit_then_poll query database output_bucket output_path
              max_execution w) as Hcompose.
  { unfold athena_to_s3, submit_then_poll, mbind, M_bind, lift.
    destruct (start_athena_query query database output_bucket output_path w)
      as [[execution|e] w1]; [|reflexivity].
    destruct (py_getitem execution "QueryExecutionId"); reflexivity. }
  split; [exact Hcompose|]. rewrite Hcompose. clear Hcompose.
  unfold submit_then_poll, start_athena_query, mbind, M_bind, call_start, mret,
    M_ret.
  destruct (start_query_execution
              (build_request query database output_bucket output_path)
              (client w)) as [[execution|e] c] eqn:Hstart.
  - split.
    + destruct (py_getitem execution "QueryExecutionId") as [handle|e].
      * unfold wait_for_athena_query. rewrite while_loop_starts.
        cbn [trace]. rewrite count_app. reflexivity.
      * cbn [snd trace]. rewrite count_app. reflexivity.
    + intros execution' c1 responses response c2 Heq Hid Hans Hrs Hm Hstate
        Hloc.
      injection Heq as <- <-. rewrite Hid.
      rewrite (poller_meets_succeeded (VStr "abc123") max_execution
                 {| client := c;
                    trace := trace w ++
                             [EvStart (build_request query database
                                         output_bucket output_path)] |}
                 responses response c2 Hans Hrs Hm Hstate).
      unfold extract_filename. rewrite Hloc. reflexivity.
  - split; [cbn [snd trace]; rewrite count_app; reflexivity|].
    intros; discriminate.
Qed.

Lemma orchestrator_is_submit_then_poll_witness :
  fst (athena_to_s3 "SELECT 1" "db" "out" "" default_max_execution
         (fresh end_to_end))
  = Ok (VStr "x.csv").
Proof.
  apply (proj2 (proj2 (orchestrator_is_submit_then_poll
                         "SELECT 1" "db" "out" "" default_max_execution
                         (fresh end_to_end)))
           (VDict {[ "QueryExecutionId" := VStr "abc123" ]})
           end_to_end
           [status_response "QUEUED"; status_response "RUNNING"]
           (succeeded_response (VStr "s3://out/x.csv"))
           (used_up end_to_end)).
  - reflexivity.
  - vm_compute. reflexivity.
  - repeat (econstructor; [reflexivity|]). constructor.
  - vm_compute. reflexivity.
  - reflexivity.
  - vm_compute. reflexivity.
  - vm_compute. reflexivity.
Defined.

(** * Further properties of the code *)

(** ** The pattern on locations of several lines *)

Module ReLines.
Import Re ReFacts.

(** Inside the group, the star takes the rest of the line and stops at the
    line feed. *)
Lemma group_takes_first_line t g :
  match_here [Star Any; GroupClose] t {| is_open := true; text := g |}
  = Some (g ++ line_of t, after_line t).
Proof.
  revert g. induction t as [|c t IH]; intros g.
  - rewrite match_star_nil. simpl. now rewrite append_empty_r.
  - rewrite match_star_cons. simpl atom_matches. simpl line_of.
    simpl after_line. destruct (Ascii.eqb c LF) eqn:Hc; simpl negb; cbv iota.
    + simpl. now rewrite append_empty_r.
    + unfold consume. simpl is_open. simpl text. cbv iota.
      rewrite IH. now rewrite append_snoc.
Qed.

Lemma match_after_star_slash s cap :
  match_here after_star (String "/" s) cap = Some (line_of s, after_line s).
Proof.
  unfold after_star. simpl match_here at 1.
  apply (group_takes_first_line s "").
Qed.

Lemma match_after_star_other c s cap :
  Ascii.eqb c "/" = false -> match_here after_star (String c s) cap = None.
Proof. intros Hc. unfold after_star. simpl. now rewrite Hc. Qed.

Lemma match_pattern_cons c s cap :
  match_here pattern (String c s) cap =
  if negb (Ascii.eqb c LF) then
    match match_here pattern s (consume c cap) with
    | Some r => Some r
    | None => match_here after_star (String c s) cap
    end
  else match_here after_star (String c s) cap.
Proof. unfold pattern. now rewrite match_star_cons. Qed.

Lemma eqb_LF_not_slash c : Ascii.eqb c LF = true -> Ascii.eqb c "/" = false.
Proof. intros Hc. apply Ascii.eqb_eq in Hc. now subst c. Qed.

(** The attempt at the start of [s] fails exactly when the first line of [s]
    holds no slash. *)
Lemma match_none_iff s :
  forall cap,
    match_here pattern s cap = None <-> contains_char "/" (line_of s) = false.
Proof.
  induction s as [|c s IH]; intros cap.
  - split; reflexivity.
  - rewrite match_pattern_cons. simpl line_of.
    destruct (Ascii.eqb c LF) eqn:Hlf; simpl negb; cbv iota.
    + rewrite (match_after_star_other c s cap (eqb_LF_not_slash c Hlf)).
      split; reflexivity.
    + simpl contains_char.
      destruct (match_here pattern s (consume c cap)) as [r|] eqn:Hin.
      * split; [discriminate|]. intros Hno.
        apply orb_false_elim in Hno as [_ Hno].
        apply (IH (consume c cap)) in Hno. congruence.
      * apply (IH (consume c cap)) in Hin. rewrite Hin, orb_false_r.
        destruct (Ascii.eqb c "/") eqn:Hslash.
        -- apply Ascii.eqb_eq in Hslash. subst c.
           rewrite match_after_star_slash. split; discriminate.
        -- rewrite (match_after_star_other c s cap Hslash).
           split; reflexivity.
Qed.

Lemma line_of_plain s : contains_char LF (line_of s) = false.
Proof.
  induction s as [|c s IH]; [reflexivity|]. simpl.
  destruct (Ascii.eqb c LF) eqn:Hc; [reflexivity|]. simpl. now rewrite Hc.
Qed.

(** A successful attempt captures a name without slash and without line
    feed. *)
Lemma match_some_plain s :
  forall cap g rest,
    match_here pattern s cap = Some (g, rest) -> plain_name g.
Proof.
  induction s as [|c s IH]; intros cap g rest.
  - discriminate.
  - rewrite match_pattern_cons.
    destruct (Ascii.eqb c LF) eqn:Hlf; simpl negb; cbv iota.
    + now rewrite (match_after_star_other c s cap (eqb_LF_not_slash c Hlf)).
    + destruct (match_here pattern s (consume c cap)) as [r|] eqn:Hin.
      * intros [= ->]. apply (IH _ _ _ Hin).
      * destruct (Ascii.eqb c "/") eqn:Hslash.
        -- apply Ascii.eqb_eq in Hslash. subst c.
           rewrite match_after_star_slash. intros [= <- <-].
           split; [now apply (match_none_iff s (consume "/" cap))
                  | apply line_of_plain].
        -- now rewrite (match_after_star_other c s cap Hslash).
Qed.

(** *** The scan *)

Lemma findall_skip_char c s :
  match_here pattern (String c s) no_capture = None ->
  findall pattern (String c s) = findall pattern s.
Proof.
  intros Hnone. unfold findall. simpl String.length.
  rewrite findall_from_S, Hnone. reflexivity.
Qed.

Lemma findall_first g rest s :
  match_here pattern s no_capture = Some (g, rest) ->
  exists others, findall pattern s = g :: others.
Proof.
  intros Hsome. unfold findall. rewrite findall_from_S, Hsome.
  eexists. reflexivity.
Qed.

(** Every match of the scan is a name without slash and line feed. *)
Lemma findall_all_plain s : Forall plain_name (findall pattern s).
Proof.
  unfold findall. generalize (S (String.length s)) as fuel. intros fuel.
  revert s. induction fuel as [|fuel IH]; intros s; [constructor|].
  rewrite findall_from_S. cbv zeta.
  assert (Forall plain_name
            match s with
            | String _ s' => findall_from fuel pattern s'
            | EmptyString => []
            end) as Hadvance.
  { destruct s; [constructor | apply IH]. }
  destruct (match_here pattern s no_capture) as [[g rest]|] eqn:Hmatch;
    [|exact Hadvance].
  constructor; [apply (match_some_plain _ _ _ _ Hmatch)|].
  destruct (String.length rest <? String.length s)%nat;
    [apply IH | exact Hadvance].
Qed.

(** The scan finds nothing exactly when the subject holds no slash. *)
Lemma findall_nil_iff s :
  findall pattern s = [] <-> contains_char "/" s = false.
Proof.
  split; [|apply findall_no_slash].
  destruct (contains_char "/" s) eqn:Hs; [|reflexivity].
  intros Hnil. exfalso. revert Hnil.
  induction s as [|c s IH]; [discriminate|].
  destruct (match_here pattern (String c s) no_capture) as [[g rest]|]
    eqn:Hmatch.
  - destruct (findall_first _ _ _ Hmatch) as [others ->]. discriminate.
  - rewrite (findall_skip_char c s Hmatch).
    apply match_none_iff in Hmatch. simpl in Hmatch, Hs.
    destruct (Ascii.eqb c LF) eqn:Hlf.
    + rewrite (eqb_LF_not_slash c Hlf) in Hs. apply IH, Hs.
    + simpl in Hmatch. apply orb_false_elim in Hmatch as [Hc _].
      rewrite Hc in Hs. apply IH, Hs.
Qed.

Lemma line_of_app_line_feed c b rest :
  contains_char c b = false ->
  contains_char c (line_of (b ++ String LF rest)) = false.
Proof.
  intros Hb. induction b as [|c' b IH]; [reflexivity|].
  rewrite append_cons. simpl in *.
  apply orb_false_elim in Hb as [Hc Hb].
  destruct (Ascii.eqb c' LF); [reflexivity|]. simpl. now rewrite Hc, IH.
Qed.

(** Lines without slash are passed over. *)
Lemma findall_skip_lines b rest :
  contains_char "/" b = false ->
  findall pattern (b ++ String LF rest) = findall pattern rest.
Proof.
  intros Hb. induction b as [|c b IH].
  - apply findall_skip_char. now apply match_none_iff.
  - rewrite append_cons. rewrite findall_skip_char.
    + simpl in Hb. apply orb_false_elim in Hb as [_ Hb]. apply IH, Hb.
    + apply match_none_iff.
      apply (line_of_app_line_feed "/" (String c b) rest Hb).
Qed.

Lemma line_of_app f after :
  contains_char LF f = false ->
  after = "" \/ (exists a, after = String LF a) ->
  line_of (f ++ after) = f /\ after_line (f ++ after) = after.
Proof.
  intros Hf Hafter. induction f as [|c f IH].
  - destruct Hafter as [-> | [a ->]]; split; reflexivity.
  - simpl in Hf. apply orb_false_elim in Hf as [Hc Hf].
    destruct (IH Hf) as [Hline Hrest].
    rewrite append_cons. simpl. rewrite Hc, Hline, Hrest. split; reflexivity.
Qed.

(** On the line [dir ++ "/" ++ filename], followed by nothing or by further
    lines, the attempt captures [filename] and stops at the end of the
    line. *)
Lemma match_line dir filename after cap :
  contains_char LF dir = false ->
  plain_name filename ->
  after = "" \/ (exists a, after = String LF a) ->
  match_here pattern (dir ++ "/" ++ filename ++ after) cap
  = Some (filename, after).
Proof.
  intros Hdir [Hslash Hlf] Hafter.
  destruct (line_of_app filename after Hlf Hafter) as [Hline Hrest].
  revert cap. induction dir as [|c dir IH]; intros cap.
  - change ("" ++ "/" ++ filename ++ after)
      with (String "/" (filename ++ after)).
    rewrite match_pattern_cons. simpl negb. cbv iota.
    assert (match_here pattern (filename ++ after) (consume "/" cap) = None)
      as ->.
    { apply match_none_iff. now rewrite Hline. }
    now rewrite match_after_star_slash, Hline, Hrest.
  - simpl in Hdir. apply orb_false_elim in Hdir as [Hc Hdir].
    rewrite append_cons, match_pattern_cons, Hc. simpl negb. cbv iota.
    now rewrite (IH Hdir).
Qed.

(** The first match of the scan is the text after the last slash of the
    first line that holds a slash. *)
Lemma findall_first_line before dir filename after :
  contains_char "/" before = false ->
  before = "" \/ (exists b, before = b ++ String LF "") ->
  contains_char LF dir = false ->
  plain_name filename ->
  after = "" \/ (exists a, after = String LF a) ->
  exists others,
    findall pattern (before ++ dir ++ "/" ++ filename ++ after)
    = filename :: others.
Proof.
  intros Hbefore Hends Hdir Hname Hafter.
  pose proof (match_line dir filename after no_capture Hdir Hname Hafter)
    as Hmatch.
  destruct (findall_first _ _ _ Hmatch) as [others Hfirst]. exists others.
  destruct Hends as [-> | [b ->]]; [exact Hfirst|].
  rewrite contains_char_app in Hbefore.
  apply orb_false_elim in Hbefore as [Hb _].
  now rewrite append_snoc, (findall_skip_lines b _ Hb).
Qed.

End ReLines.

(** ** Further turns of the loop *)

Section MoreTurns.

Context {C : Type} `{AthenaClient C}.

Implicit Types (w : world C) (c : C) (id state response : pyval).

Ltac run_turn Hget :=
  unfold loop_body, mbind, M_bind, call_get, lift, print, sleep, log, mret,
    M_ret, after_get; rewrite Hget; cbn [client trace].

Ltac close_world := cbn [client trace]; rewrite <- ?app_assoc; reflexivity.

Lemma loop_body_get_raises id m state w e c :
  get_query_execution id (client w) = (Raise e, c) ->
  loop_body id m state w = (Raise e, after_get w c id []).
Proof. intros Hget. run_turn Hget. reflexivity. Qed.

Lemma loop_body_test_raises id m state w response c e :
  get_query_execution id (client w) = (Ok response, c) ->
  has_status response = Raise e ->
  loop_body id m state w = (Raise e, after_get w c id []).
Proof. intros Hget Hcond. run_turn Hget. rewrite Hcond. reflexivity. Qed.

Lemma loop_body_state_raises id m state w response c e :
  get_query_execution id (client w) = (Ok response, c) ->
  has_status response = Ok true ->
  state_of response = Raise e ->
  loop_body id m state w = (Raise e, after_get w c id []).
Proof.
  intros Hget Hcond Hstate. run_turn Hget. rewrite Hcond, Hstate. reflexivity.
Qed.

Lemma loop_body_other_state id m state w response c state' :
  get_query_execution id (client w) = (Ok response, c) ->
  state_of response = Ok state' ->
  py_eq_str state' "FAILED" = false ->
  py_eq_str state' "SUCCEEDED" = false ->
  loop_body id m state w = (Ok (Next state'), after_get w c id [EvSleep 1]).
Proof.
  intros Hget Hstate Hfailed Hsucceeded. run_turn Hget.
  rewrite (state_of_has_status _ _ Hstate), Hstate. simpl.
  rewrite Hfailed, Hsucceeded. close_world.
Qed.

(** After turns in progress that leave some budget, the run is decided by
    the next turn. *)
Lemma poller_after_polls id m w rs c :
  answers id (client w) rs c ->
  forallb reports_in_progress rs = true ->
  Z.of_nat (length rs) < m ->
  exists state,
    in_progress state = true
    /\ wait_for_athena_query id m w =
       match loop_body id (m - Z.of_nat (length rs) - 1) state
               {| client := c; trace := trace w ++ polls id (length rs) |} with
       | (Ok (Return v), w') => (Ok v, w')
       | (Ok (Next state'), w') =>
           while_loop id (m - Z.of_nat (length rs) - 1) state' w'
       | (Raise e, w') => (Raise e, w')
       end.
Proof.
  intros Hans Hrs Hm. unfold wait_for_athena_query.
  destruct (while_loop_polls id rs m (VStr "RUNNING") w c Hans Hrs
              ltac:(lia) eq_refl) as (state & Hstate & ->).
  exists state. split; [exact Hstate|].
  now rewrite while_loop_turn by (lia || assumption).
Qed.

Lemma while_loop_not_in_progress id m state w :
  in_progress state = false ->
  while_loop id m state w = (Ok (VBool false), w).
Proof.
  intros Hstate. rewrite while_loop_eq, Hstate, andb_false_r. reflexivity.
Qed.

End MoreTurns.

(** ** Other ends of a run of the poller *)

(** X1: an exception raised by a status query is not caught: after turns in
    progress that leave some budget, it ends the run of the poller right
    after that query, without a sleep and without the value False. *)
Theorem poller_error_propagates {C} `{AthenaClient C}
  (id : pyval) (m : Z) (w : world C) (responses : list pyval) (c1 c2 : C)
  (e : exn) :
  answers id (client w) responses c1 ->
  forallb reports_in_progress responses = true ->
  Z.of_nat (length responses) < m ->
  get_query_execution id c1 = (Raise e, c2) ->
  wait_for_athena_query id m w
  = (Raise e,
     {| client := c2;
        trace := trace w ++ polls id (length responses) ++ [EvGet id] |}).
Proof.
  intros Hans Hrs Hm Hget.
  destruct (poller_after_polls id m w responses c1 Hans Hrs Hm)
    as (state & _ & ->).
  rewrite (loop_body_get_raises id _ state
             {| client := c1; trace := trace w ++ polls id (length responses) |}
             e c2 Hget).
  unfold after_get. cbn [client trace]. now rewrite <- app_assoc.
Qed.

Lemma poller_error_propagates_witness :
  wait_for_athena_query (VStr "abc123") default_max_execution
    (fresh (queued_then (Raise (RemoteError "ThrottlingException"))))
  = (Raise (RemoteError "ThrottlingException"),
     {| client := used_up (queued_then
                             (Raise (RemoteError "ThrottlingException")));
        trace := [] ++ polls (VStr "abc123") 1 ++ [EvGet (VStr "abc123")] |}).
Proof.
  apply (poller_error_propagates (VStr "abc123") default_max_execution
           (fresh (queued_then (Raise (RemoteError "ThrottlingException"))))
           [status_response "QUEUED"]
           {| on_start := Ok (VDict {[ "QueryExecutionId" := VStr "abc123" ]});
              on_get := [Raise (RemoteError "ThrottlingException")];
              on_get_after :=
                Raise (RemoteError "no further query expected") |}
           (used_up (queued_then (Raise (RemoteError "ThrottlingException"))))
           (RemoteError "ThrottlingException")).
  - econstructor; [reflexivity | constructor].
  - vm_compute. reflexivity.
  - reflexivity.
  - reflexivity.
Defined.

(** X2: FAILED met after [k] turns in progress, with budget left: the poller
    returns False; the run is the [k] turns, the query and the two prints,
    and the message shows the budget [m - k - 1]. *)
Theorem poller_failed_later {C} `{AthenaClient C}
  (id : pyval) (m : Z) (w : world C) (responses : list pyval)
  (response : pyval) (c : C) :
  answers id (client w) (responses ++ [response]) c ->
  forallb reports_in_progress responses = true ->
  Z.of_nat (length responses) < m ->
  state_of response = Ok (VStr "FAILED") ->
  exists status,
    status_of response = Ok status
    /\ wait_for_athena_query id m w
       = (Ok (VBool false),
          {| client := c;
             trace :=
               trace w ++ polls id (length responses) ++
               [EvGet id;
                EvPrint (VStr (failure_message
                                 (m - Z.of_nat (length responses) - 1)));
                EvPrint status] |}).
Proof.
  intros Hans Hrs Hm Hstate.
  destruct (answers_snoc _ _ _ _ _ Hans) as (c1 & Hans1 & Hget).
  destruct (poller_after_polls id m w responses c1 Hans1 Hrs Hm)
    as (state & _ & ->).
  destruct (loop_body_failed id (m - Z.of_nat (length responses) - 1) state
              {| client := c1;
                 trace := trace w ++ polls id (length responses) |}
              response c Hget Hstate) as (status & Hstatus & ->).
  exists status. split; [exact Hstatus|].
  unfold after_get. cbn [client trace]. now rewrite <- app_assoc.
Qed.

Lemma poller_failed_later_witness :
  exists status,
    status_of (status_response "FAILED") = Ok status
    /\ wait_for_athena_query (VStr "abc123") 7
         (fresh (queued_then (Ok (status_response "FAILED"))))
       = (Ok (VBool false),
          {| client := used_up (queued_then (Ok (status_response "FAILED")));
             trace :=
               [] ++ polls (VStr "abc123") 1 ++
               [EvGet (VStr "abc123");
                EvPrint (VStr (failure_message (7 - Z.of_nat 1 - 1)));
                EvPrint status] |}).
Proof.
  apply (poller_failed_later (VStr "abc123") 7
           (fresh (queued_then (Ok (status_response "FAILED"))))
           [status_response "QUEUED"] (status_response "FAILED")
           (used_up (queued_then (Ok (status_response "FAILED"))))).
  - repeat (econstructor; [reflexivity|]). constructor.
  - vm_compute. reflexivity.
  - reflexivity.
  - vm_compute. reflexivity.
Defined.

(** X3: a reported state that is none of RUNNING, QUEUED, FAILED and
    SUCCEEDED (CANCELLED, say, or a value that is not a string) ends the run
    like a timeout: the turn still sleeps, then the poller returns False
    with the rest of the budget unused and nothing printed. *)
Theorem poller_other_state_returns_false {C} `{AthenaClient C}
  (id : pyval) (m : Z) (w : world C) (responses : list pyval)
  (response : pyval) (c : C) (state : pyval) :
  answers id (client w) (responses ++ [response]) c ->
  forallb reports_in_progress responses = true ->
  Z.of_nat (length responses) < m ->
  state_of response = Ok state ->
  in_progress state = false ->
  py_eq_str state "FAILED" = false ->
  py_eq_str state "SUCCEEDED" = false ->
  wait_for_athena_query id m w
  = (Ok (VBool false),
     {| client := c;
        trace := trace w ++ polls id (S (length responses)) |}).
Proof.
  intros Hans Hrs Hm Hstate Hprogress Hfailed Hsucceeded.
  destruct (answers_snoc _ _ _ _ _ Hans) as (c1 & Hans1 & Hget).
  destruct (poller_after_polls id m w responses c1 Hans1 Hrs Hm)
    as (state0 & _ & ->).
  rewrite (loop_body_other_state id _ state0
             {| client := c1; trace := trace w ++ polls id (length responses) |}
             response c state Hget Hstate Hfailed Hsucceeded).
  rewrite (while_loop_not_in_progress _ _ _ _ Hprogress).
  unfold after_get. cbn [client trace]. rewrite <- app_assoc.
  do 3 f_equal. clear. induction (length responses) as [|k IH];
    [reflexivity | simpl; now rewrite IH].
Qed.

Lemma poller_other_state_returns_false_witness :
  wait_for_athena_query (VStr "abc123") default_max_execution
    (fresh (queued_then (Ok (status_response "CANCELLED"))))
  = (Ok (VBool false),
     {| client := used_up (queued_then (Ok (status_response "CANCELLED")));
        trace := [] ++ polls (VStr "abc123") 2 |}).
Proof.
  apply (poller_other_state_returns_false (VStr "abc123")
           default_max_execution
           (fresh (queued_then (Ok (status_response "CANCELLED"))))
           [status_response "QUEUED"] (status_response "CANCELLED")
           (used_up (queued_then (Ok (status_response "CANCELLED"))))
           (VStr "CANCELLED")).
  - repeat (econstructor; [reflexivity|]). constructor.
  - vm_compute. reflexivity.
  - reflexivity.
  - vm_compute. reflexivity.
  - reflexivity.
  - reflexivity.
  - reflexivity.
Defined.

(** X4: SUCCEEDED reported without the output location: when
    'QueryExecution' has no 'ResultConfiguration', or 'ResultConfiguration'
    has no 'OutputLocation', the poller raises KeyError for the missing key;
    it does not return False. *)
Theorem succeeded_without_location {C} `{AthenaClient C}
  (id : pyval) (m : Z) (w : world C) (responses : list pyval)
  (d execution : gmap string pyval) (c : C) (key : string) :
  answers id (client w) (responses ++ [VDict d]) c ->
  forallb reports_in_progress responses = true ->
  Z.of_nat (length responses) < m ->
  state_of (VDict d) = Ok (VStr "SUCCEEDED") ->
  d !! "QueryExecution" = Some (VDict execution) ->
  (execution !! "ResultConfiguration" = None /\ key = "ResultConfiguration")
  \/ (exists configuration : gmap string pyval,
         execution !! "ResultConfiguration" = Some (VDict configuration)
         /\ configuration !! "OutputLocation" = None
         /\ key = "OutputLocation") ->
  wait_for_athena_query id m w
  = (Raise (KeyError key),
     {| client := c;
        trace := trace w ++ polls id (length responses) ++ [EvGet id] |}).
Proof.
  intros Hans Hrs Hm Hstate Hexecution Hmissing.
  rewrite (poller_meets_succeeded id m w responses (VDict d) c Hans Hrs Hm
             Hstate).
  assert (extract_filename (VDict d) = Raise (KeyError key)) as ->;
    [|reflexivity].
  unfold extract_filename, output_location_of. simpl. rewrite Hexecution.
  simpl.
  destruct Hmissing as [[Hnone ->] | (configuration & Hsome & Hnone & ->)].
  - now rewrite Hnone.
  - rewrite Hsome. simpl. now rewrite Hnone.
Qed.

Lemma succeeded_without_location_witness :
  wait_for_athena_query (VStr "abc123") default_max_execution
    (fresh (one_answer (status_response "SUCCEEDED")))
  = (Raise (KeyError "ResultConfiguration"),
     {| client := used_up (one_answer (status_response "SUCCEEDED"));
        trace := [] ++ polls (VStr "abc123") 0 ++ [EvGet (VStr "abc123")] |}).
Proof.
  apply (succeeded_without_location (VStr "abc123") default_max_execution
           (fresh (one_answer (status_response "SUCCEEDED"))) []
           {[ "QueryExecution" :=
                VDict {[ "Status" := VDict {[ "State" := VStr "SUCCEEDED" ]} ]} ]}
           {[ "Status" := VDict {[ "State" := VStr "SUCCEEDED" ]} ]}
           (used_up (one_answer (status_response "SUCCEEDED")))
           "ResultConfiguration").
  - econstructor; [reflexivity | constructor].
  - reflexivity.
  - reflexivity.
  - vm_compute. reflexivity.
  - vm_compute. reflexivity.
  - left. split; [vm_compute|]; reflexivity.
Defined.

(** X5: SUCCEEDED reported with an output location that is not a string
    (None, say): [re.findall] raises TypeError, and so does the poller. *)
Theorem succeeded_location_not_a_string {C} `{AthenaClient C}
  (id : pyval) (m : Z) (w : world C) (responses : list pyval)
  (response : pyval) (c : C) (location : pyval) :
  answers id (client w) (responses ++ [response]) c ->
  forallb reports_in_progress responses = true ->
  Z.of_nat (length responses) < m ->
  state_of response = Ok (VStr "SUCCEEDED") ->
  output_location_of response = Ok location ->
  (forall s, location <> VStr s) ->
  wait_for_athena_query id m w
  = (Raise TypeError,
     {| client := c;
        trace := trace w ++ polls id (length responses) ++ [EvGet id] |}).
Proof.
  intros Hans Hrs Hm Hstate Hloc Hnot.
  rewrite (poller_meets_succeeded id m w responses response c Hans Hrs Hm
             Hstate).
  unfold extract_filename. rewrite Hloc. simpl.
  destruct location as [| | |s| |]; try reflexivity.
  now destruct (Hnot s).
Qed.

Lemma succeeded_location_not_a_string_witness :
  wait_for_athena_query (VStr "abc123") default_max_execution
    (fresh (one_answer (succeeded_response VNone)))
  = (Raise TypeError,
     {| client := used_up (one_answer (succeeded_response VNone));
        trace := [] ++ polls (VStr "abc123") 0 ++ [EvGet (VStr "abc123")] |}).
Proof.
  apply (succeeded_location_not_a_string (VStr "abc123")
           default_max_execution
           (fresh (one_answer (succeeded_response VNone))) []
           (succeeded_response VNone)
           (used_up (one_answer (succeeded_response VNone))) VNone).
  - econstructor; [reflexivity | constructor].
  - reflexivity.
  - reflexivity.
  - vm_compute. reflexivity.
  - vm_compute. reflexivity.
  - discriminate.
Defined.

(** X6: a response whose 'Status' is a dict without the key 'State' is not
    passed over like a response without 'Status': the poller raises
    KeyError for 'State'. *)
Theorem status_without_state_raises {C} `{AthenaClient C}
  (id : pyval) (m : Z) (w : world C) (responses : list pyval)
  (d execution status : gmap string pyval) (c : C) :
  answers id (client w) (responses ++ [VDict d]) c ->
  forallb reports_in_progress responses = true ->
  Z.of_nat (length responses) < m ->
  d !! "QueryExecution" = Some (VDict execution) ->
  execution !! "Status" = Some (VDict status) ->
  status !! "State" = None ->
  wait_for_athena_query id m w
  = (Raise (KeyError "State"),
     {| client := c;
        trace := trace w ++ polls id (length responses) ++ [EvGet id] |}).
Proof.
  intros Hans Hrs Hm Hexecution Hstatus Hstate.
  destruct (answers_snoc _ _ _ _ _ Hans) as (c1 & Hans1 & Hget).
  destruct (poller_after_polls id m w responses c1 Hans1 Hrs Hm)
    as (state & _ & ->).
  rewrite (loop_body_state_raises id _ state
             {| client := c1; trace := trace w ++ polls id (length responses) |}
             (VDict d) c (KeyError "State") Hget).
  - unfold after_get. cbn [client trace]. now rewrite <- app_assoc.
  - unfold has_status. simpl. rewrite Hexecution.
    rewrite bool_decide_eq_true_2 by eauto. simpl. rewrite Hstatus.
    now rewrite bool_decide_eq_true_2 by eauto.
  - unfold state_of, status_of. simpl. rewrite Hexecution. simpl.
    rewrite Hstatus. simpl. now rewrite Hstate.
Qed.

Lemma status_without_state_raises_witness :
  wait_for_athena_query (VStr "abc123") default_max_execution
    (fresh (one_answer status_without_state))
  = (Raise (KeyError "State"),
     {| client := used_up (one_answer status_without_state);
        trace := [] ++ polls (VStr "abc123") 0 ++ [EvGet (VStr "abc123")] |}).
Proof.
  apply (status_without_state_raises (VStr "abc123") default_max_execution
           (fresh (one_answer status_without_state)) []
           {[ "QueryExecution" := VDict {[ "Status" := VDict ∅ ]} ]}
           {[ "Status" := VDict ∅ ]} ∅
           (used_up (one_answer status_without_state))).
  - econstructor; [reflexivity | constructor].
  - reflexivity.
  - reflexivity.
  - vm_compute. reflexivity.
  - vm_compute. reflexivity.
  - reflexivity.
Defined.

(** ** What every run of the poller keeps *)

Lemma extract_filename_plain response filename :
  extract_filename response = Ok filename -> plain_name filename.
Proof.
  unfold extract_filename.
  destruct (output_location_of response) as [location|e]; [|discriminate].
  simpl. destruct location as [| | |s| |]; try discriminate. simpl.
  pose proof (ReLines.findall_all_plain s) as Hall.
  destruct (Re.findall Re.pattern s) as [|g others]; [discriminate|].
  simpl. intros [= <-]. now inversion Hall.
Qed.

Section Invariants.

Context {C : Type} `{AthenaClient C}.

Implicit Types (w : world C) (c : C) (id state response : pyval).

Ltac same_trace :=
  cbn [client trace fst snd]; rewrite <- ?app_assoc; reflexivity.

(** A turn either ends with the sleep and goes on, or ends the run after
    its query and, at most, prints. *)
Lemma loop_body_outcome id m state w :
  (exists state',
      fst (loop_body id m state w) = Ok (Next state')
      /\ trace (snd (loop_body id m state w))
         = (trace w ++ [EvGet id; EvSleep 1])%list)
  \/ ((forall state', fst (loop_body id m state w) <> Ok (Next state'))
      /\ (forall v, fst (loop_body id m state w) = Ok (Return v) ->
                    poller_value v)
      /\ exists prints,
           forallb is_print prints = true
           /\ trace (snd (loop_body id m state w))
              = (trace w ++ EvGet id :: prints)%list).
Proof.
  unfold loop_body, mbind, M_bind, call_get, lift, print, sleep, log, mret,
    M_ret.
  destruct (get_query_execution id (client w)) as [[r|e] c];
    cbn [client trace fst snd].
  2: { right. repeat split; try discriminate. now exists []. }
  destruct (has_status r) as [[|]|e]; cbn [client trace fst snd].
  - destruct (state_of r) as [v|e]; cbn [client trace fst snd].
    + destruct (py_eq_str v "FAILED").
      * right. destruct (status_of r) as [status|e]; cbn [client trace fst snd].
        -- repeat split; try discriminate.
           ++ intros v' [= <-]. now left.
           ++ eexists [_; _]. split; [|same_trace].
              reflexivity.
        -- repeat split; try discriminate.
           eexists [_]. split; [|same_trace]. reflexivity.
      * destruct (py_eq_str v "SUCCEEDED").
        -- right.
           destruct (extract_filename r) as [filename|e] eqn:Hextract;
             cbn [client trace fst snd].
           ++ repeat split; try discriminate.
              ** intros v' [= <-]. right. exists filename.
                 split; [reflexivity|].
                 apply (extract_filename_plain r filename Hextract).
              ** now exists [].
           ++ repeat split; try discriminate. now exists [].
        -- left. exists v. split; [reflexivity|]. same_trace.
    + right. repeat split; try discriminate. now exists [].
  - left. exists state. split; [reflexivity|]. same_trace.
  - right. repeat split; try discriminate. now exists [].
Qed.

Lemma count_cons k e (t : list event) :
  count k (e :: t) = ((if k e then 1 else 0) + count k t)%nat.
Proof. unfold count. simpl. now destruct (k e). Qed.

Lemma count_prints k (prints : list event) :
  (forall e, is_print e = true -> k e = false) ->
  forallb is_print prints = true ->
  count k prints = 0%nat.
Proof.
  intros Hk. induction prints as [|e prints IH]; [reflexivity|].
  simpl. intros Hall. apply andb_true_iff in Hall as [He Hall].
  rewrite count_cons, (Hk e He), (IH Hall). reflexivity.
Qed.

(** The loop: the events added have the shape of [poller_trace], hold at
    most as many queries as the budget, and an outcome that is a value is
    False or a plain file name. *)
Lemma while_loop_outcome id m :
  forall state w,
    (forall v, fst (while_loop id m state w) = Ok v -> poller_value v)
    /\ exists t,
         trace (snd (while_loop id m state w)) = (trace w ++ t)%list
         /\ poller_trace id t
         /\ (count is_get t <= Z.to_nat m)%nat.
Proof.
  remember (Z.to_nat m) as n eqn:Hn. revert m Hn.
  induction n as [|n IH]; intros m Hn state w; rewrite while_loop_eq.
  - rewrite bool_decide_eq_false_2 by lia. simpl. split.
    + intros v [= <-]. now left.
    + exists []. rewrite app_nil_r. repeat split; [constructor | reflexivity].
  - destruct (bool_decide (m > 0) && in_progress state).
    2: { simpl. split; [intros v [= <-]; now left|].
         exists []. rewrite app_nil_r.
         repeat split; [constructor | unfold count; simpl; lia]. }
    destruct (loop_body_outcome id (m - 1) state w)
      as [(state' & Hres & Htrace) | (Hnot & Hvalue & prints & Hprints & Htrace)].
    + destruct (loop_body id (m - 1) state w) as [r w'].
      simpl in Hres, Htrace. subst r.
      destruct (IH (m - 1) ltac:(lia) state' w') as (Hv & t & Ht & Hshape & Hcount).
      split; [exact Hv|].
      exists (EvGet id :: EvSleep 1 :: t). rewrite Ht, Htrace, <- app_assoc.
      repeat split; [now constructor|].
      rewrite !count_cons. simpl. lia.
    + destruct (loop_body id (m - 1) state w) as [[[v|state']|e] w'];
        simpl in Hnot, Hvalue, Htrace.
      * split; [intros v' [= <-]; now apply Hvalue|].
        exists (EvGet id :: prints). simpl. repeat split;
          [exact Htrace | now constructor |].
        rewrite count_cons, (count_prints is_get prints); [simpl; lia | | exact Hprints].
        now intros [].
      * now destruct (Hnot state').
      * split; [discriminate|].
        exists (EvGet id :: prints). simpl. repeat split;
          [exact Htrace | now constructor |].
        rewrite count_cons, (count_prints is_get prints); [simpl; lia | | exact Hprints].
        now intros [].
Qed.

(** What the shape says about the numbers of events. *)
Lemma poller_trace_counts id t :
  poller_trace id t ->
  count is_start t = 0%nat
  /\ (count is_sleep t <= count is_get t <= S (count is_sleep t))%nat.
Proof.
  induction 1 as [|prints Hprints|t Hshape [Hstart Hbounds]].
  - split; [reflexivity | unfold count; simpl; lia].
  - rewrite !count_cons, !(count_prints _ prints) by
      (exact Hprints || now intros []).
    simpl. lia.
  - rewrite !count_cons. simpl. lia.
Qed.

End Invariants.

(** X7: whatever the client answers, a run of the poller with budget [m]
    performs at most [m] status queries (none when [m] is not positive). *)
Theorem poller_query_bound {C} `{AthenaClient C}
  (id : pyval) (m : Z) (w : world C) :
  (count is_get (trace (snd (wait_for_athena_query id m w)))
   <= count is_get (trace w) + Z.to_nat m)%nat.
Proof.
  unfold wait_for_athena_query.
  destruct (while_loop_outcome id m (VStr "RUNNING") w)
    as (_ & t & -> & _ & Hcount).
  rewrite count_app. lia.
Qed.

(** X8: whatever the client answers, a run of the poller keeps the events
    already recorded and adds only turns made of a status query for the
    given identifier and a sleep of one second, ended, when the run returns
    or raises inside a turn, by one more such query and at most prints.  So
    the poller submits nothing, and its sleeps number as many as its
    queries, or one less. *)
Theorem poller_trace_shape {C} `{AthenaClient C}
  (id : pyval) (m : Z) (w : world C) :
  exists t,
    trace (snd (wait_for_athena_query id m w)) = (trace w ++ t)%list
    /\ poller_trace id t
    /\ count is_start t = 0%nat
    /\ (count is_sleep t <= count is_get t <= S (count is_sleep t))%nat.
Proof.
  unfold wait_for_athena_query.
  destruct (while_loop_outcome id m (VStr "RUNNING") w)
    as (_ & t & Ht & Hshape & _).
  exists t. split; [exact Ht|]. split; [exact Hshape|].
  apply (poller_trace_counts id t Hshape).
Qed.

(** X9: whatever the client answers, a value returned by the poller is
    False or a string without '/' and without line feed. *)
Theorem poller_returns_false_or_plain_name {C} `{AthenaClient C}
  (id : pyval) (m : Z) (w : world C) (v : pyval) :
  fst (wait_for_athena_query id m w) = Ok v ->
  v = VBool false
  \/ exists filename,
       v = VStr filename
       /\ contains_char "/" filename = false
       /\ contains_char Re.LF filename = false.
Proof.
  unfold wait_for_athena_query.
  destruct (while_loop_outcome id m (VStr "RUNNING") w) as (Hvalue & _).
  intros Hv. apply (Hvalue v Hv).
Qed.

Lemma poller_returns_false_or_plain_name_witness :
  VStr "result.csv" = VBool false
  \/ exists filename,
       VStr "result.csv" = VStr filename
       /\ contains_char "/" filename = false
       /\ contains_char Re.LF filename = false.
Proof.
  apply (poller_returns_false_or_plain_name (VStr "abc123")
           default_max_execution (fresh two_running_then_succeeded)
           (VStr "result.csv")).
  vm_compute. reflexivity.
Defined.

(** ** The extraction on every location *)

(** X10: when the poller meets SUCCEEDED, the name it returns is the text
    after the last '/' of the first line of the location that holds a '/':
    lines without '/' before that line are passed over, and what follows
    the line is ignored. *)
Theorem poller_returns_segment_of_first_line {C} `{AthenaClient C}
  (id : pyval) (m : Z) (w : world C) (responses : list pyval)
  (response : pyval) (c : C) (before dir filename after : string) :
  answers id (client w) (responses ++ [response]) c ->
  forallb reports_in_progress responses = true ->
  Z.of_nat (length responses) < m ->
  state_of response = Ok (VStr "SUCCEEDED") ->
  output_location_of response
  = Ok (VStr (before ++ dir ++ "/" ++ filename ++ after)) ->
  contains_char "/" before = false ->
  before = "" \/ (exists b, before = b ++ String Re.LF "") ->
  contains_char Re.LF dir = false ->
  contains_char "/" filename = false ->
  contains_char Re.LF filename = false ->
  after = "" \/ (exists a, after = String Re.LF a) ->
  fst (wait_for_athena_query id m w) = Ok (VStr filename).
Proof.
  intros Hans Hrs Hm Hstate Hloc Hbefore Hends Hdir Hslash Hlf Hafter.
  rewrite (poller_meets_succeeded id m w responses response c Hans Hrs Hm
             Hstate).
  unfold extract_filename. rewrite Hloc. simpl.
  destruct (ReLines.findall_first_line before dir filename after Hbefore Hends
              Hdir (conj Hslash Hlf) Hafter) as [others ->].
  reflexivity.
Qed.

Lemma poller_returns_segment_of_first_line_witness :
  fst (wait_for_athena_query (VStr "abc123") default_max_execution
         (fresh (one_answer (succeeded_response (VStr note_then_location)))))
  = Ok (VStr "x.csv").
Proof.
  apply (poller_returns_segment_of_first_line (VStr "abc123")
           default_max_execution
           (fresh (one_answer (succeeded_response (VStr note_then_location))))
           [] (succeeded_response (VStr note_then_location))
           (used_up (one_answer
                       (succeeded_response (VStr note_then_location))))
           ("results of the day" ++ String Re.LF "") "s3://bucket" "x.csv" "").
  - econstructor; [reflexivity | constructor].
  - reflexivity.
  - reflexivity.
  - vm_compute. reflexivity.
  - vm_compute. reflexivity.
  - reflexivity.
  - right. exists "results of the day". reflexivity.
  - reflexivity.
  - reflexivity.
  - reflexivity.
  - left. reflexivity.
Defined.

(** X11: when the poller meets SUCCEEDED with a location that is a string,
    it raises IndexError exactly when the location holds no '/'; with a '/'
    anywhere in the location it returns a name. *)
Theorem extraction_fails_iff_no_slash {C} `{AthenaClient C}
  (id : pyval) (m : Z) (w : world C) (responses : list pyval)
  (response : pyval) (c : C) (location : string) :
  answers id (client w) (responses ++ [response]) c ->
  forallb reports_in_progress responses = true ->
  Z.of_nat (length responses) < m ->
  state_of response = Ok (VStr "SUCCEEDED") ->
  output_location_of response = Ok (VStr location) ->
  (fst (wait_for_athena_query id m w) = Raise IndexError
   <-> contains_char "/" location = false)
  /\ (contains_char "/" location = true ->
      exists filename,
        fst (wait_for_athena_query id m w) = Ok (VStr filename)).
Proof.
  intros Hans Hrs Hm Hstate Hloc.
  rewrite (poller_meets_succeeded id m w responses response c Hans Hrs Hm
             Hstate).
  unfold extract_filename. rewrite Hloc. simpl.
  pose proof (ReLines.findall_nil_iff location) as Hnil.
  destruct (Re.findall Re.pattern location) as [|g others]; simpl.
  - rewrite (proj1 Hnil eq_refl). split; [split; reflexivity | discriminate].
  - split.
    + split; [discriminate|]. intros Hno. apply Hnil in Hno. discriminate.
    + intros _. now exists g.
Qed.

Lemma extraction_fails_iff_no_slash_witness :
  (fst (wait_for_athena_query (VStr "abc123") default_max_execution
          (fresh (one_answer (succeeded_response (VStr "result.csv")))))
   = Raise IndexError
   <-> contains_char "/" "result.csv" = false)
  /\ (contains_char "/" "result.csv" = true ->
      exists filename,
        fst (wait_for_athena_query (VStr "abc123") default_max_execution
               (fresh (one_answer (succeeded_response (VStr "result.csv")))))
        = Ok (VStr filename)).
Proof.
  apply (extraction_fails_iff_no_slash (VStr "abc123") default_max_execution
           (fresh (one_answer (succeeded_response (VStr "result.csv"))))
           [] (succeeded_response (VStr "result.csv"))
           (used_up (one_answer (succeeded_response (VStr "result.csv"))))
           "result.csv").
  - econstructor; [reflexivity | constructor].
  - reflexivity.
  - reflexivity.
  - vm_compute. reflexivity.
  - vm_compute. reflexivity.
Defined.

(** ** The orchestrator beyond the composition *)


Section Orchestrator.

Context {C : Type} `{AthenaClient C}.

Implicit Types (w : world C) (c : C).

(** The run of the orchestrator once the submission has answered. *)
Lemma athena_to_s3_submitted query database output_bucket output_path m w
  execution c :
  start_query_execution
    (build_request query database output_bucket output_path) (client w)
  = (Ok execution, c) ->
  athena_to_s3 query database output_bucket output_path m w
  = match py_getitem execution "QueryExecutionId" with
    | Ok handle =>
        wait_for_athena_query handle m
          {| client := c;
             trace := trace w ++
                      [EvStart (build_request query database output_bucket
                                  output_path)] |}
    | Raise e =>
        (Raise e,
         {| client := c;
            trace := trace w ++
                     [EvStart (build_request query database output_bucket
                                 output_path)] |})
    end.
Proof.
  intros Hstart.
  unfold athena_to_s3, start_athena_query, mbind, M_bind, call_start, mret,
    M_ret, lift.
  rewrite Hstart.
  destruct (py_getitem execution "QueryExecutionId"); reflexivity.
Qed.

End Orchestrator.

(** X12: when the answer to the submission is a dict without the key
    'QueryExecutionId', the orchestrator raises KeyError for it: the query
    has been submitted, and no status query is made. *)
Theorem orchestrator_without_identifier {C} `{AthenaClient C}
  (query database output_bucket output_path : string) (m : Z) (w : world C)
  (answer : gmap string pyval) (c : C) :
  start_query_execution
    (build_request query database output_bucket output_path) (client w)
  = (Ok (VDict answer), c) ->
  answer !! "QueryExecutionId" = None ->
  athena_to_s3 query database output_bucket output_path m w
  = (Raise (KeyError "QueryExecutionId"),
     {| client := c;
        trace := trace w ++
                 [EvStart (build_request query database output_bucket
                             output_path)] |}).
Proof.
  intros Hstart Hnone.
  rewrite (athena_to_s3_submitted _ _ _ _ m w _ c Hstart).
  simpl. now rewrite Hnone.
Qed.

Lemma orchestrator_without_identifier_witness :
  athena_to_s3 "SELECT 1" "db" "out" "results/" default_max_execution
    (fresh submission_without_id)
  = (Raise (KeyError "QueryExecutionId"),
     {| client := submission_without_id;
        trace := [] ++ [EvStart (build_request "SELECT 1" "db" "out"
                                   "results/")] |}).
Proof.
  apply (orchestrator_without_identifier "SELECT 1" "db" "out" "results/"
           default_max_execution (fresh submission_without_id)
           {[ "ResponseMetadata" := VDict ∅ ]} submission_without_id).
  - reflexivity.
  - vm_compute. reflexivity.
Defined.

(** X13: with a budget that is not positive the orchestrator still submits
    the query; it then returns False without any status query or sleep. *)
Theorem orchestrator_nonpositive_budget {C} `{AthenaClient C}
  (query database output_bucket output_path : string) (m : Z) (w : world C)
  (execution handle : pyval) (c : C) :
  m <= 0 ->
  start_query_execution
    (build_request query database output_bucket output_path) (client w)
  = (Ok execution, c) ->
  py_getitem execution "QueryExecutionId" = Ok handle ->
  athena_to_s3 query database output_bucket output_path m w
  = (Ok (VBool false),
     {| client := c;
        trace := trace w ++
                 [EvStart (build_request query database output_bucket
                             output_path)] |}).
Proof.
  intros Hm Hstart Hid.
  rewrite (athena_to_s3_submitted _ _ _ _ m w _ c Hstart), Hid.
  apply while_loop_exhausted, Hm.
Qed.

Lemma orchestrator_nonpositive_budget_witness :
  athena_to_s3 "SELECT 1" "db" "out" "results/" 0 (fresh end_to_end)
  = (Ok (VBool false),
     {| client := end_to_end;
        trace := [] ++ [EvStart (build_request "SELECT 1" "db" "out"
                                   "results/")] |}).
Proof.
  apply (orchestrator_nonpositive_budget "SELECT 1" "db" "out" "results/" 0
           (fresh end_to_end)
           (VDict {[ "QueryExecutionId" := VStr "abc123" ]}) (VStr "abc123")
           end_to_end).
  - lia.
  - reflexivity.
  - vm_compute. reflexivity.
Defined.

(** X14: once the submission has answered with an identifier, every status
    query of the orchestrator is for that identifier, there are at most as
    many as the budget, and the events of the run are the submission
    followed by a run of the poller. *)
Theorem orchestrator_polls_returned_identifier {C} `{AthenaClient C}
  (query database output_bucket output_path : string) (m : Z) (w : world C)
  (execution handle : pyval) (c : C) :
  start_query_execution
    (build_request query database output_bucket output_path) (client w)
  = (Ok execution, c) ->
  py_getitem execution "QueryExecutionId" = Ok handle ->
  exists t,
    trace (snd (athena_to_s3 query database output_bucket output_path m w))
    = (trace w ++
       EvStart (build_request query database output_bucket output_path) :: t)%list
    /\ poller_trace handle t
    /\ (count is_get t <= Z.to_nat m)%nat.
Proof.
  intros Hstart Hid.
  rewrite (athena_to_s3_submitted _ _ _ _ m w _ c Hstart), Hid.
  unfold wait_for_athena_query.
  destruct (while_loop_outcome handle m (VStr "RUNNING")
              {| client := c;
                 trace := trace w ++
                          [EvStart (build_request query database output_bucket
                                      output_path)] |})
    as (_ & t & Ht & Hshape & Hcount).
  exists t. rewrite Ht. cbn [trace]. rewrite <- app_assoc.
  repeat split; assumption.
Qed.

Lemma orchestrator_polls_returned_identifier_witness :
  exists t,
    trace (snd (athena_to_s3 "SELECT 1" "db" "out" "" default_max_execution
                  (fresh end_to_end)))
    = ([] ++ EvStart (build_request "SELECT 1" "db" "out" "") :: t)%list
    /\ poller_trace (VStr "abc123") t
    /\ (count is_get t <= Z.to_nat default_max_execution)%nat.
Proof.
  apply (orchestrator_polls_returned_identifier "SELECT 1" "db" "out" ""
           default_max_execution (fresh end_to_end)
           (VDict {[ "QueryExecutionId" := VStr "abc123" ]}) (VStr "abc123")
           end_to_end).
  - reflexivity.
  - vm_compute. reflexivity.
Defined.



(** ** The budget and the outcome *)

Section Budget.

Context {C : Type} `{AthenaClient C}.

Implicit Types (w : world C) (c : C) (id state response : pyval).

(** The budget enters a turn only through the message printed on FAILED. *)
Lemma loop_body_budget id m m' state w :
  (fst (loop_body id m state w) = Ok (Return (VBool false))
   /\ fst (loop_body id m' state w) = Ok (Return (VBool false)))
  \/ loop_body id m state w = loop_body id m' state w.
Proof.
  unfold loop_body, mbind, M_bind, call_get, lift, print, sleep, log, mret,
    M_ret.
  destruct (get_query_execution id (client w)) as [[r|e] c];
    [|right; reflexivity].
  destruct (has_status r) as [[|]|e]; [|right; reflexivity..].
  destruct (state_of r) as [v|e] eqn:Hstate; [|right; reflexivity].
  destruct (py_eq_str v "FAILED"); [|right; reflexivity].
  destruct (state_of_status_of r v Hstate) as (status & -> & _).
  left. split; reflexivity.
Qed.

Lemma while_loop_larger_budget id m :
  forall m' state w,
    fst (while_loop id m state w) <> Ok (VBool false) ->
    m <= m' ->
    while_loop id m' state w = while_loop id m state w.
Proof.
  remember (Z.to_nat m) as n eqn:Hn. revert m Hn.
  induction n as [|n IH]; intros m Hn m' state w; rewrite (while_loop_eq id m).
  - rewrite bool_decide_eq_false_2 by lia. simpl. congruence.
  - destruct (bool_decide (m > 0)) eqn:Hpos; [|simpl; congruence].
    apply bool_decide_eq_true_1 in Hpos.
    destruct (in_progress state) eqn:Hstate; [|simpl; congruence].
    simpl. intros Hne Hle.
    rewrite (while_loop_turn id m' state w) by (lia || assumption).
    destruct (loop_body_budget id (m - 1) (m' - 1) state w)
      as [[Hfalse _] | Hsame].
    + destruct (loop_body id (m - 1) state w) as [r w1]. simpl in Hfalse.
      subst r. now destruct Hne.
    + rewrite <- Hsame.
      destruct (loop_body id (m - 1) state w) as [[[v|state']|e] w1];
        try reflexivity.
      apply IH; [lia | exact Hne | lia].
Qed.

End Budget.

(** X16: a run of the poller that does not return False (it returns a file
    name, or raises) is the same run, with the same outcome and the same
    events, under every larger budget. *)
Theorem larger_budget_same_outcome {C} `{AthenaClient C}
  (id : pyval) (m m' : Z) (w : world C) :
  fst (wait_for_athena_query id m w) <> Ok (VBool false) ->
  m <= m' ->
  wait_for_athena_query id m' w = wait_for_athena_query id m w.
Proof.
  intros Hne Hle. unfold wait_for_athena_query in *.
  apply (while_loop_larger_budget id m m' (VStr "RUNNING") w Hne Hle).
Qed.

Lemma larger_budget_same_outcome_witness :
  wait_for_athena_query (VStr "abc123") default_max_execution
    (fresh two_running_then_succeeded)
  = wait_for_athena_query (VStr "abc123") 3 (fresh two_running_then_succeeded).
Proof.
  apply (larger_budget_same_outcome (VStr "abc123") 3 default_max_execution
           (fresh two_running_then_succeeded)).
  - vm_compute. discriminate.
  - vm_compute. discriminate.
Defined.

(** X17: a status response that is None, a bool or an int makes the test
    ['QueryExecution' in response] raise TypeError, and the poller with it:
    such a response is not passed over like a dict without the key. *)
Theorem response_not_iterable_raises {C} `{AthenaClient C}
  (id : pyval) (m : Z) (w : world C) (responses : list pyval)
  (response : pyval) (c : C) :
  answers id (client w) (responses ++ [response]) c ->
  forallb reports_in_progress responses = true ->
  Z.of_nat (length responses) < m ->
  response = VNone
  \/ (exists b, response = VBool b)
  \/ (exists z, response = VInt z) ->
  wait_for_athena_query id m w
  = (Raise TypeError,
     {| client := c;
        trace := trace w ++ polls id (length responses) ++ [EvGet id] |}).
Proof.
  intros Hans Hrs Hm Hkind.
  destruct (answers_snoc _ _ _ _ _ Hans) as (c1 & Hans1 & Hget).
  destruct (poller_after_polls id m w responses c1 Hans1 Hrs Hm)
    as (state & _ & ->).
  rewrite (loop_body_test_raises id _ state
             {| client := c1; trace := trace w ++ polls id (length responses) |}
             response c TypeError Hget).
  - unfold after_get. cbn [client trace]. now rewrite <- app_assoc.
  - destruct Hkind as [-> | [[b ->] | [z ->]]]; reflexivity.
Qed.

Lemma response_not_iterable_raises_witness :
  wait_for_athena_query (VStr "abc123") default_max_execution
    (fresh (one_answer VNone))
  = (Raise TypeError,
     {| client := used_up (one_answer VNone);
        trace := [] ++ polls (VStr "abc123") 0 ++ [EvGet (VStr "abc123")] |}).
Proof.
  apply (response_not_iterable_raises (VStr "abc123") default_max_execution
           (fresh (one_answer VNone)) [] VNone (used_up (one_answer VNone))).
  - econstructor; [reflexivity | constructor].
  - reflexivity.
  - reflexivity.
  - left. reflexivity.
Defined.
